(** * Structured-input parsing of the nexgen inventory and price tools

    A shallow embedding of the parse step of [StockCheckTool.build]
    (components/nexgen/inventorycheck.py) and [PriceCheckTool.build]
    (components/nexgen/pricecheck.py): everything from the initial
    [input_str.strip()] up to the construction of the [params] dictionary
    handed to [requests.post].

    Python strings are sequences of code points.  The model covers the
    Latin-1 range U+0000..U+00FF, one [ascii] per code point, and the
    built-ins the two methods call ([str.strip], [str.split], [float],
    [int], [datetime.strptime], [date.strftime]) are modelled on that
    range after their CPython implementation. *)

From Stdlib Require Import ZArith NArith Ascii String List Bool Lia Permutation.
From Stdlib Require Import Floats.SpecFloat.
From Stdlib Require DecimalString.
Import ListNotations.
Local Open Scope Z_scope.

(** ** Strings *)

Definition str := list ascii.

Definition lit (s : string) : str := list_ascii_of_string s.

Definition ord (c : ascii) : N := N_of_ascii c.

(** The double-quote character, U+0022. *)
Definition dq : ascii := ascii_of_N 34.

Definition quoted (s : str) : str := dq :: s ++ [dq].

Fixpoint str_eqb (a b : str) : bool :=
  match a, b with
  | [], [] => true
  | x :: a', y :: b' => Ascii.eqb x y && str_eqb a' b'
  | _, _ => false
  end.

(** [str.isspace] on one code point below U+0100: the characters of
    bidirectional type WS, B or S, or of category Zs. *)
Definition isspace (c : ascii) : bool :=
  let n := ord c in
  (((9 <=? n) && (n <=? 13)) || ((28 <=? n) && (n <=? 32))
   || (n =? 133) || (n =? 160))%N.

Fixpoint dropwhile (p : ascii -> bool) (s : str) : str :=
  match s with
  | [] => []
  | c :: t => if p c then dropwhile p t else s
  end.

Definition lstrip_by (p : ascii -> bool) (s : str) : str := dropwhile p s.
Definition rstrip_by (p : ascii -> bool) (s : str) : str :=
  rev (dropwhile p (rev s)).
Definition strip_by (p : ascii -> bool) (s : str) : str :=
  rstrip_by p (lstrip_by p s).

(** [s.strip()] *)
Definition strip (s : str) : str := strip_by isspace s.

(** [s.strip(chars)] for a one-character [chars] *)
Definition strip_chars (ch : ascii) (s : str) : str :=
  strip_by (Ascii.eqb ch) s.

(** [s.split(sep)] for a one-character separator: never empty. *)
Fixpoint split (sep : ascii) (s : str) : list str :=
  match s with
  | [] => [[]]
  | c :: t =>
      if Ascii.eqb c sep then [] :: split sep t
      else match split sep t with
           | h :: r => (c :: h) :: r
           | [] => [[c]]
           end
  end.

(** [s.split(sep, maxsplit=1)]: one or two pieces. *)
Fixpoint split_maxsplit1 (sep : ascii) (s : str) : list str :=
  match s with
  | [] => [[]]
  | c :: t =>
      if Ascii.eqb c sep then [[]; t]
      else match split_maxsplit1 sep t with
           | h :: r => (c :: h) :: r
           | [] => [[c]]
           end
  end.

(** [sep.join(parts)] *)
Fixpoint join (sep : ascii) (parts : list str) : str :=
  match parts with
  | [] => []
  | [p] => p
  | p :: rest => p ++ sep :: join sep rest
  end.

(** ** Exceptions and results

    [pyres] is the outcome of a built-in call: a value or a raised
    exception.  [outcome] is the outcome of the parse step of [build]:
    the validated parameters, an ["error"] record carrying a message, or an
    exception that leaves [build] because no handler catches it. *)

Inductive exn := ValueError | TypeError | OverflowError.

Inductive pyres (A : Type) :=
| Val (a : A)
| Exc (e : exn).
Arguments Val {A} a.
Arguments Exc {A} e.

Definition bind {A B} (r : pyres A) (k : A -> pyres B) : pyres B :=
  match r with
  | Val a => k a
  | Exc e => Exc e
  end.

Notation "x <- r ;; k" := (bind r (fun x => k))
  (at level 61, r at next level, right associativity).

Inductive outcome (A : Type) :=
| Params (a : A)
| ErrorData (msg : str)
| Raised (e : exn).
Arguments Params {A} a.
Arguments ErrorData {A} msg.
Arguments Raised {A} e.

(** ** [float(x)]

    [PyFloat_FromString] and the functions below it: the string is mapped to
    ASCII, underscores between digits are removed, the ASCII white space
    around the numeral is skipped and [PyOS_string_to_double] must consume
    all that is left. *)

Definition NUL : ascii := ascii_of_N 0.

Definition Py_ISSPACE (c : ascii) : bool :=
  let n := ord c in (((9 <=? n) && (n <=? 13)) || (n =? 32))%N.

Definition is_digit (c : ascii) : bool :=
  let n := ord c in ((48 <=? n) && (n <=? 57))%N.

Definition digit_val (c : ascii) : Z := Z.of_N (ord c) - 48.

Definition Py_TOLOWER (c : ascii) : ascii :=
  let n := ord c in
  if ((65 <=? n) && (n <=? 90))%N then ascii_of_N (n + 32) else c.

(** No code point of U+0080..U+00FF is a decimal digit, so outside ASCII
    only the two spaces U+0085 and U+00A0 survive; anything else ends the
    output with a question mark. *)
Fixpoint transform_non_ascii (s : str) : str :=
  match s with
  | [] => []
  | c :: t =>
      if (ord c <? 127)%N then c :: transform_non_ascii t
      else if isspace c then " "%char :: transform_non_ascii t
      else ["?"%char]
  end.

Definition TransformDecimalAndSpaceToASCII (s : str) : str :=
  if forallb (fun c => (ord c <? 128)%N) s then s else transform_non_ascii s.

(** [strchr] stops at the first NUL of the buffer. *)
Fixpoint strchr (ch : ascii) (s : str) : bool :=
  match s with
  | [] => false
  | c :: t => if Ascii.eqb c NUL then false else Ascii.eqb c ch || strchr ch t
  end.

(** The copying loop of [_Py_string_to_number_with_underscores]; [None] is
    its [error] label. *)
Fixpoint remove_underscores (prev : ascii) (s : str) : option str :=
  match s with
  | [] => if Ascii.eqb prev "_" then None else Some []
  | c :: t =>
      if Ascii.eqb c NUL then None
      else if Ascii.eqb c "_" then
        if is_digit prev then remove_underscores c t else None
      else if Ascii.eqb prev "_" && negb (is_digit c) then None
      else option_map (cons c) (remove_underscores c t)
  end.

Definition string_to_number_with_underscores {A}
  (s : str) (innerfunc : str -> pyres A) : pyres A :=
  if strchr "_" s then
    match remove_underscores NUL s with
    | Some dup => innerfunc dup
    | None => Exc ValueError
    end
  else innerfunc s.

Fixpoint takewhile (p : ascii -> bool) (s : str) : str :=
  match s with
  | [] => []
  | c :: t => if p c then c :: takewhile p t else []
  end.

Definition is_zero_digit (c : ascii) : bool := Ascii.eqb c "0".

(** Value of a run of decimal digits. *)
Definition decimal (ds : str) : Z :=
  fold_left (fun acc c => 10 * acc + digit_val c) ds 0.

Definition MAX_DIGITS : Z := 1000000000.
Definition MAX_ABS_EXP : Z := 1100000000.

Definition prec : Z := 53.
Definition emax : Z := 1024.

(** The binary64 number nearest to [m * 10^e], ties to even: the value
    [_Py_dg_strtod] returns for a numeral with non-zero digits [m] and
    decimal exponent [e].  A negative exponent is a division; its quotient
    is taken with 63 bits or more and a sticky bit. *)
Definition round_decimal (sign : bool) (m : positive) (e : Z) : spec_float :=
  if 0 <=? e then binary_round prec emax sign (Z.to_pos (Zpos m * 10 ^ e)) 0
  else
    let d := 10 ^ (- e) in
    let k := Z.max 0 (Z.log2 d + 64 - Z.log2 (Zpos m)) in
    let n := Zpos m * 2 ^ k in
    let sticky := if n mod d =? 0 then 0 else 1 in
    binary_round prec emax sign (Z.to_pos (2 * (n / d) + sticky)) (- (k + 1)).

(** The exponent part, entered on [e] or [E] with [s] the text after it:
    the exponent and the text left, or [None] when no digit follows. *)
Definition parse_exponent (s : str) : option (Z * str) :=
  let '(esign, s) :=
    match s with
    | "-"%char :: t => (true, t)
    | "+"%char :: t => (false, t)
    | _ => (false, s)
    end in
  let zeros := takewhile is_zero_digit s in
  let s1 := dropwhile is_zero_digit s in
  let ds := takewhile is_digit s1 in
  let s2 := dropwhile is_digit s1 in
  let abs_exp := decimal ds in
  let e :=
    if (9 <? Z.of_nat (length ds)) || (MAX_ABS_EXP <? abs_exp)
    then MAX_ABS_EXP else abs_exp in
  match zeros, ds with
  | [], [] => None
  | _, _ => Some (if esign then - e else e, s2)
  end.

(** [_Py_dg_strtod]: the value and the text left, [None] on its
    [parse_error] label, where nothing is consumed. *)
Definition Py_dg_strtod (s00 : str) : option (spec_float * str) :=
  let '(sign, s) :=
    match s00 with
    | "-"%char :: t => (true, t)
    | "+"%char :: t => (false, t)
    | _ => (false, s00)
    end in
  let idigits := takewhile is_digit s in
  let s := dropwhile is_digit s in
  let '(fdigits, s) :=
    match s with
    | "."%char :: t => (takewhile is_digit t, dropwhile is_digit t)
    | _ => ([], s)
    end in
  let digits := idigits ++ fdigits in
  let ndigits := Z.of_nat (length (dropwhile is_zero_digit digits)) in
  let fraclen := Z.of_nat (length fdigits) in
  match digits with
  | [] => None
  | _ =>
      if (MAX_DIGITS <? ndigits) || (MAX_DIGITS <? fraclen) then None
      else
        let '(e, s) :=
          match s with
          | c :: t =>
              if Ascii.eqb c "e" || Ascii.eqb c "E" then
                match parse_exponent t with
                | Some (e, s') => (e, s')
                | None => (0, s)
                end
              else (0, s)
          | [] => (0, s)
          end in
        match decimal digits with
        | Zpos m => Some (round_decimal sign m (e - fraclen), s)
        | _ => Some (S754_zero sign, s)
        end
  end.

(** [case_insensitive_match]: the text after the prefix [t], if [s] starts
    with [t] up to the case of ASCII letters. *)
Fixpoint case_insensitive_match (s t : str) : option str :=
  match t with
  | [] => Some s
  | x :: t' =>
      match s with
      | c :: s' =>
          if Ascii.eqb (Py_TOLOWER c) x then case_insensitive_match s' t'
          else None
      | [] => None
      end
  end.

Definition Py_parse_inf_or_nan (p : str) : option (spec_float * str) :=
  let '(negate, s) :=
    match p with
    | "-"%char :: t => (true, t)
    | "+"%char :: t => (false, t)
    | _ => (false, p)
    end in
  match case_insensitive_match s (lit "inf") with
  | Some s1 =>
      match case_insensitive_match s1 (lit "inity") with
      | Some s2 => Some (S754_infinity negate, s2)
      | None => Some (S754_infinity negate, s1)
      end
  | None =>
      match case_insensitive_match s (lit "nan") with
      | Some s1 => Some (S754_nan, s1)
      | None => None
      end
  end.

Definition PyOS_ascii_strtod (nptr : str) : option (spec_float * str) :=
  match Py_dg_strtod nptr with
  | Some r => Some r
  | None => Py_parse_inf_or_nan nptr
  end.

Definition float_from_string_inner (s : str) : pyres spec_float :=
  match lstrip_by Py_ISSPACE s with
  | [] => Exc ValueError
  | s1 =>
      match PyOS_ascii_strtod (rstrip_by Py_ISSPACE s1) with
      | Some (x, []) => Val x
      | _ => Exc ValueError
      end
  end.

(** [float(x)] for [x] a string or [None]. *)
Definition float (x : option str) : pyres spec_float :=
  match x with
  | None => Exc TypeError
  | Some s =>
      string_to_number_with_underscores
        (TransformDecimalAndSpaceToASCII s) float_from_string_inner
  end.

(** [int(x)] for a float: truncation toward zero. *)
Definition int (x : spec_float) : pyres Z :=
  match x with
  | S754_nan => Exc ValueError
  | S754_infinity _ => Exc OverflowError
  | S754_zero _ => Val 0
  | S754_finite s m e =>
      let a := if 0 <=? e then Zpos m * 2 ^ e else Zpos m / 2 ^ (- e) in
      Val (if s then - a else a)
  end.

(** ** [datetime.strptime] and [date.strftime]

    [_strptime] turns the format into a regular expression, matches it at
    the start of the text with [re.match], refuses text that is left over
    and builds the date from the groups.  The expressions it builds for the
    formats used here consist of named groups, each a choice between
    sequences of character classes, and of literal characters. *)

Inductive cls :=
| Chr (c : ascii)         (* one literal character *)
| Rng (lo hi : ascii)     (* [lo-hi] *)
| Dig.                    (* \d *)

Definition cls_match (k : cls) (c : ascii) : bool :=
  match k with
  | Chr x => Ascii.eqb c x
  | Rng lo hi => ((ord lo <=? ord c) && (ord c <=? ord hi))%N
  | Dig => is_digit c
  end.

(** One alternative: the matched text and the text after it. *)
Fixpoint match_alt (a : list cls) (s : str) : option (str * str) :=
  match a with
  | [] => Some ([], s)
  | k :: a' =>
      match s with
      | c :: t =>
          if cls_match k c then
            match match_alt a' t with
            | Some (m, rest) => Some (c :: m, rest)
            | None => None
            end
          else None
      | [] => None
      end
  end.

Inductive item :=
| Group (key : ascii) (alts : list (list cls))
| Literal (c : ascii).

Definition regex := list item.

(** Backtracking match at the start of [s]: the alternatives of a group are
    tried from left to right, and the next one is tried when the rest of the
    expression fails after the current one. *)
Fixpoint re_match (r : regex) (s : str) (found : list (ascii * str))
  : option (list (ascii * str) * str) :=
  match r with
  | [] => Some (found, s)
  | Literal c :: r' =>
      match s with
      | x :: t => if Ascii.eqb x c then re_match r' t found else None
      | [] => None
      end
  | Group key alts :: r' =>
      (fix try (alts : list (list cls)) :=
         match alts with
         | [] => None
         | a :: alts' =>
             match match_alt a s with
             | Some (m, rest) =>
                 match re_match r' rest ((key, m) :: found) with
                 | Some res => Some res
                 | None => try alts'
                 end
             | None => try alts'
             end
         end) alts
  end.

Definition c0 : ascii := "0".
Definition c1 : ascii := "1".
Definition c2 : ascii := "2".
Definition c3 : ascii := "3".
Definition c9 : ascii := "9".

(** The entries of [TimeRE] for the four directives in use:
    m is 1[0-2]|0[1-9]|[1-9],
    d is 3[0-1]|[1-2]\d|0[1-9]|[1-9]| [1-9],
    y is \d\d and Y is \d\d\d\d. *)
Definition TimeRE (directive : ascii) : list (list cls) :=
  if Ascii.eqb directive "m" then
    [[Chr c1; Rng c0 c2]; [Chr c0; Rng c1 c9]; [Rng c1 c9]]
  else if Ascii.eqb directive "d" then
    [[Chr c3; Rng c0 c1]; [Rng c1 c2; Dig]; [Chr c0; Rng c1 c9];
     [Rng c1 c9]; [Chr " "; Rng c1 c9]]
  else if Ascii.eqb directive "y" then [[Dig; Dig]]
  else if Ascii.eqb directive "Y" then [[Dig; Dig; Dig; Dig]]
  else [].

(** [TimeRE.pattern]: a percent sign and the character after it become the
    group of that directive, any other character stands for itself. *)
Fixpoint pattern (format : str) : regex :=
  match format with
  | [] => []
  | c :: t =>
      if Ascii.eqb c "%" then
        match t with
        | d :: t' => Group d (TimeRE d) :: pattern t'
        | [] => [Literal c]
        end
      else Literal c :: pattern t
  end.

Fixpoint found_dict (found : list (ascii * str)) (key : ascii) : option str :=
  match found with
  | [] => None
  | (k, v) :: rest => if Ascii.eqb k key then Some v else found_dict rest key
  end.

(** [int(s)] on the text of a group: digits, after one space at most. *)
Definition int_of_group (s : str) : Z := decimal (strip s).

Record date := mkdate { year : Z; month : Z; day : Z }.

Definition is_leap (y : Z) : bool :=
  (y mod 4 =? 0) && (negb (y mod 100 =? 0) || (y mod 400 =? 0)).

Definition days_in_month (y m : Z) : Z :=
  if m =? 2 then (if is_leap y then 29 else 28)
  else if (m =? 4) || (m =? 6) || (m =? 9) || (m =? 11) then 30
  else 31.

(** The constructor of [datetime.date] with its range checks. *)
Definition datetime_date (y m d : Z) : pyres date :=
  if (1 <=? y) && (y <=? 9999) && (1 <=? m) && (m <=? 12)
     && (1 <=? d) && (d <=? days_in_month y m)
  then Val (mkdate y m d) else Exc ValueError.

(** [datetime.strptime(data_string, format).date()] *)
Definition strptime (data_string : option str) (format : str) : pyres date :=
  match data_string with
  | None => Exc TypeError
  | Some s =>
      match re_match (pattern format) s [] with
      | None => Exc ValueError
      | Some (found, _ :: _) => Exc ValueError
      | Some (found, []) =>
          let year :=
            match found_dict found "y" with
            | Some t =>
                let y := int_of_group t in
                if y <=? 68 then y + 2000 else y + 1900
            | None =>
                match found_dict found "Y" with
                | Some t => int_of_group t
                | None => 1900
                end
            end in
          let month :=
            match found_dict found "m" with
            | Some t => int_of_group t
            | None => 1
            end in
          let day :=
            match found_dict found "d" with
            | Some t => int_of_group t
            | None => 1
            end in
          datetime_date year month day
      end
  end.

Definition digit_char (n : Z) : ascii := ascii_of_N (Z.to_N (48 + n mod 10)).

Definition zfill2 (n : Z) : str := [digit_char (n / 10); digit_char n].

Definition zfill4 (n : Z) : str :=
  [digit_char (n / 1000); digit_char (n / 100); digit_char (n / 10);
   digit_char n].

(** [str(z)] for an integer: its decimal digits, after a minus sign when it
    is negative. *)
Definition str_of_int (z : Z) : str :=
  lit (DecimalString.NilZero.string_of_int (Z.to_int z)).

(** [d.strftime(format)] for the directives Y, m and d.  The text comes from
    the [strftime] of the C library: month and day with two digits, and the
    year as a plain number, with no zero before a year below 1000. *)
Fixpoint strftime (d : date) (format : str) : str :=
  match format with
  | [] => []
  | c :: t =>
      if Ascii.eqb c "%" then
        match t with
        | x :: t' =>
            (if Ascii.eqb x "Y" then str_of_int (year d)
             else if Ascii.eqb x "m" then zfill2 (month d)
             else if Ascii.eqb x "d" then zfill2 (day d)
             else [c; x]) ++ strftime d t'
        | [] => [c]
        end
      else c :: strftime d t
  end.

(** ** The parse step of the two tools *)

Definition could_not_parse (part : str) : str :=
  lit "Could not parse segment: " ++ part.

Definition unrecognized_key (key part : str) : str :=
  lit "Unrecognized key '" ++ key ++ lit "' in segment: " ++ part.

Definition bpn_error : str :=
  lit "'buyer_part_number' must be a non-empty string.".

(** The body of the segment loop up to the key test, the same in both
    tools: [sub_parts] is the stripped segment split at its first equals
    sign; with two pieces, [key] is the first one stripped and [raw_value]
    the second one stripped of white space, then of double quotes.  [None]
    stands for [len(sub_parts) != 2]. *)
Definition segment_fields (part : str) : option (str * str) :=
  match split_maxsplit1 "=" (strip part) with
  | [k; v] => Some (strip k, strip_chars dq (strip v))
  | _ => None
  end.

(** [not x or not x.strip()] for [x] a string or [None]. *)
Definition is_blank (x : option str) : bool :=
  match x with
  | None => true
  | Some [] => true
  | Some s => match strip s with [] => true | _ => false end
  end.

Definition strip_opt (x : option str) : str :=
  match x with
  | Some s => strip s
  | None => []
  end.

Module StockCheckTool.

(** The local variables the segment loop assigns. *)
Record placeholders := mkph {
  buyer_part_number : option str;
  order_quantity : option str;
  requested_fulfillment_date : option str }.

(** The [params] dictionary. *)
Record params := mkparams {
  p_buyer_part_number : str;
  p_order_quantity : Z;
  p_requested_fulfillment_date : str }.

Definition count_error : str :=
  lit "Expected exactly 3 comma-separated segments. Format: buyer_part_number="
  ++ quoted (lit "...") ++ lit ", order_quantity=" ++ quoted (lit "...")
  ++ lit ", requested_fulfillment_date=" ++ quoted (lit "...").

Definition positive_error : str :=
  lit "'order_quantity' must be a positive integer.".

Definition integer_error : str :=
  lit "'order_quantity' must be a valid integer (e.g., '32100', '32100.000').".

Definition date_error : str :=
  lit "'requested_fulfillment_date' must be in 'MM/DD/YY' or 'MM/DD/YYYY' format (e.g., '5/1/25' or '5/1/2025').".

(** The loop over [parts]: the first error message, or the placeholders
    once every segment is consumed. *)
Fixpoint parse_segments (parts : list str) (ph : placeholders)
  : str + placeholders :=
  match parts with
  | [] => inr ph
  | part :: rest =>
      match segment_fields part with
      | Some (key, raw_value) =>
          if str_eqb key (lit "buyer_part_number") then
            parse_segments rest
              (mkph (Some raw_value) (order_quantity ph)
                 (requested_fulfillment_date ph))
          else if str_eqb key (lit "order_quantity") then
            parse_segments rest
              (mkph (buyer_part_number ph) (Some raw_value)
                 (requested_fulfillment_date ph))
          else if str_eqb key (lit "requested_fulfillment_date") then
            parse_segments rest
              (mkph (buyer_part_number ph) (order_quantity ph)
                 (Some raw_value))
          else inl (unrecognized_key key part)
      | None => inl (could_not_parse part)
      end
  end.

Definition tried_formats : list str := [lit "%m/%d/%y"; lit "%m/%d/%Y"].

(** The loop over [tried_formats]: the first format that parses, [None]
    when [success] stays false; only [ValueError] is caught. *)
Fixpoint try_formats (fmts : list str) (x : option str)
  : pyres (option date) :=
  match fmts with
  | [] => Val None
  | fmt :: rest =>
      match strptime x fmt with
      | Val d => Val (Some d)
      | Exc ValueError => try_formats rest x
      | Exc e => Exc e
      end
  end.

(** Steps 3 to 6 of [build], up to [params]. *)
Definition validate (ph : placeholders) : outcome params :=
  if is_blank (buyer_part_number ph) then ErrorData bpn_error
  else
    match (quantity_float <- float (order_quantity ph) ;; int quantity_float) with
    | Exc ValueError => ErrorData integer_error
    | Exc e => Raised e
    | Val order_quantity_int =>
        if order_quantity_int <=? 0 then ErrorData positive_error
        else
          match try_formats tried_formats (requested_fulfillment_date ph) with
          | Exc e => Raised e
          | Val None => ErrorData date_error
          | Val (Some requested_date_obj) =>
              Params
                (mkparams (strip_opt (buyer_part_number ph))
                   order_quantity_int
                   (strftime requested_date_obj (lit "%Y-%m-%d")))
          end
    end.

Definition build (input_str : str) : outcome params :=
  let input_str := strip input_str in
  let parts := split "," input_str in
  if negb (Nat.eqb (length parts) 3) then ErrorData count_error
  else
    match parse_segments parts (mkph None None None) with
    | inl msg => ErrorData msg
    | inr ph => validate ph
    end.

End StockCheckTool.

Module PriceCheckTool.

Record placeholders := mkph {
  buyer_part_number : option str;
  po_price_str : option str }.

Record params := mkparams {
  p_buyer_part_number : str;
  p_po_price : spec_float }.

Definition count_error : str :=
  lit "Expected exactly 2 comma-separated segments. Format: buyer_part_number="
  ++ quoted (lit "...") ++ lit ", po_price=" ++ quoted (lit "...").

Definition price_error : str :=
  lit "'po_price' must be a valid number (e.g., '125.50').".

Fixpoint parse_segments (parts : list str) (ph : placeholders)
  : str + placeholders :=
  match parts with
  | [] => inr ph
  | part :: rest =>
      match segment_fields part with
      | Some (key, raw_value) =>
          if str_eqb key (lit "buyer_part_number") then
            parse_segments rest (mkph (Some raw_value) (po_price_str ph))
          else if str_eqb key (lit "po_price") then
            parse_segments rest (mkph (buyer_part_number ph) (Some raw_value))
          else inl (unrecognized_key key part)
      | None => inl (could_not_parse part)
      end
  end.

(** Steps 3 to 5 of [build], up to [params]. *)
Definition validate (ph : placeholders) : outcome params :=
  if is_blank (buyer_part_number ph) then ErrorData bpn_error
  else
    match float (po_price_str ph) with
    | Exc ValueError => ErrorData price_error
    | Exc e => Raised e
    | Val po_price_float =>
        Params (mkparams (strip_opt (buyer_part_number ph)) po_price_float)
    end.

Definition build (input_str : str) : outcome params :=
  let input_str := strip input_str in
  let parts := split "," input_str in
  if negb (Nat.eqb (length parts) 2) then ErrorData count_error
  else
    match parse_segments parts (mkph None None) with
    | inl msg => ErrorData msg
    | inr ph => validate ph
    end.

End PriceCheckTool.

(** Inputs of the form [key="value", key="value", ...]. *)
Definition assign (key : string) (value : str) : str :=
  lit key ++ "="%char :: quoted value.

Definition comma_space (segs : list str) : str :=
  match segs with
  | [] => []
  | s :: rest => s ++ concat (map (fun x => lit ", " ++ x) rest)
  end.

(** The three-segment inventory input and the two-segment price input. *)
Definition inventory_input_of (part quantity date : str) : str :=
  comma_space [assign "buyer_part_number" part;
               assign "order_quantity" quantity;
               assign "requested_fulfillment_date" date].

Definition inventory_input (part quantity date : string) : str :=
  inventory_input_of (lit part) (lit quantity) (lit date).

Definition price_input_of (part price : str) : str :=
  comma_space [assign "buyer_part_number" part; assign "po_price" price].

Definition price_input (part price : string) : str :=
  price_input_of (lit part) (lit price).

(** ** Auxiliary notions for the proofs *)

(** [f] applied to the last element of a list. *)
Fixpoint map_last {A} (f : A -> A) (l : list A) : list A :=
  match l with
  | [] => []
  | [x] => [f x]
  | x :: r => x :: map_last f r
  end.

(** What stripping a joined text does to its pieces: the first loses its
    leading white space and the last its trailing white space. *)
Definition trim_ends (ps : list str) : list str :=
  match ps with
  | [] => []
  | a :: rest => map_last (rstrip_by isspace) (lstrip_by isspace a :: rest)
  end.

Definition no_sep (sep : ascii) (p : str) : Prop := ~ In sep p.


(** The normalized form of a date text, as [build] computes it: the first of
    [tried_formats] that parses, written with [strftime]. *)
Definition normalize_date (text : str) : pyres (option str) :=
  match StockCheckTool.try_formats StockCheckTool.tried_formats (Some text) with
  | Val (Some d) => Val (Some (strftime d (lit "%Y-%m-%d")))
  | Val None => Val None
  | Exc e => Exc e
  end.


(** ** Further notions for the proofs *)

(** The keys the segment loop of each tool assigns. *)
Definition stock_key (key : str) : bool :=
  str_eqb key (lit "buyer_part_number") || str_eqb key (lit "order_quantity")
  || str_eqb key (lit "requested_fulfillment_date").

Definition price_key (key : str) : bool :=
  str_eqb key (lit "buyer_part_number") || str_eqb key (lit "po_price").

(** A segment with an equals sign and a key that passes [known]. *)
Definition recognized (known : str -> bool) (part : str) : Prop :=
  exists key raw_value,
    segment_fields part = Some (key, raw_value) /\ known key = true.

(** A date written YYYY-MM-DD. *)
Definition iso_text (y m d : Z) : str :=
  zfill4 y ++ "-"%char :: zfill2 m ++ "-"%char :: zfill2 d.

(** The text [strftime] writes for the format of [build]: the year as a
    plain number, then month and day with two digits. *)
Definition written_date (y m d : Z) : str :=
  str_of_int y ++ "-"%char :: zfill2 m ++ "-"%char :: zfill2 d.

(** A month or a day written without a leading zero. *)
Definition short2 (n : Z) : str :=
  if n <? 10 then [digit_char n] else zfill2 n.

(** The century [strptime] gives to a year of two digits. *)
Definition pivot_year (yy : Z) : Z := if yy <=? 68 then yy + 2000 else yy + 1900.

(** A date text: month, slash, day, slash, year. *)
Definition date_text (month_text day_text year_text : str) : str :=
  month_text ++ "/"%char :: day_text ++ "/"%char :: year_text.

(** ** The request and the result record

    What follows the parse step in [build]: the request, the reading of its
    reply and the [Data] record returned, then [process_input] and the tool
    functions built on it. *)

(** Python values that reach a result record: those of a decoded JSON body
    and the ones [build] writes itself. *)
#[warning="-register-all"]
Inductive pyval :=
| PNone
| PBool (b : bool)
| PInt (z : Z)
| PFloat (f : spec_float)
| PStr (s : str)
| PList (l : list pyval)
| PDict (d : list (str * pyval)).

Definition dict := list (str * pyval).

(** [d[key]], [None] for a missing key. *)
Fixpoint dict_get (d : dict) (key : str) : option pyval :=
  match d with
  | [] => None
  | (k, v) :: rest => if str_eqb k key then Some v else dict_get rest key
  end.

(** [d.get(key, default)] *)
Definition dict_get_default (d : dict) (key : str) (default : pyval) : pyval :=
  match dict_get d key with
  | Some v => v
  | None => default
  end.

(** [bool(v)] *)
Definition truthy (v : pyval) : bool :=
  match v with
  | PNone => false
  | PBool b => b
  | PInt z => negb (z =? 0)
  | PFloat (S754_zero _) => false
  | PFloat _ => true
  | PStr [] => false
  | PStr _ => true
  | PList [] => false
  | PList _ => true
  | PDict [] => false
  | PDict _ => true
  end.

(** [d.get(key)] used as a condition: a missing key gives [None]. *)
Definition truthy_get (d : dict) (key : str) : bool :=
  match dict_get d key with
  | Some v => truthy v
  | None => false
  end.

(** What lines 119 to 121 of inventorycheck.py (91 to 93 of pricecheck.py)
    come to: the decoded body, or a [RequestException] with its text. *)
Inductive reply :=
| Body (data : pyval)
| RequestException (text : str).

(** Exceptions that leave the whole of [build]. *)
Inductive fault :=
| Parse (e : exn)
| AttributeError.

(** The [Data] record returned and the text left in [self.status]. *)
Inductive result :=
| Data (data : dict) (status : str)
| Raises (f : fault).

Definition error_data (msg : str) : result := Data [(lit "error", PStr msg)] msg.

Definition raw_or_empty (x : option str) : str :=
  match x with
  | Some s => s
  | None => []
  end.

(** [str(v)], as an f-string writes a value; [str_other] is the text [str]
    gives for a float, a list or a dict. *)
Definition py_str (str_other : pyval -> str) (v : pyval) : str :=
  match v with
  | PStr s => s
  | PInt z => str_of_int z
  | PBool true => lit "True"
  | PBool false => lit "False"
  | PNone => lit "None"
  | _ => str_other v
  end.

(** [result.data.get("message", result.data.get("error", "No result"))] *)
Definition message_or_error (r : result) : pyval + fault :=
  match r with
  | Data d _ =>
      inl (dict_get_default d (lit "message")
             (dict_get_default d (lit "error") (PStr (lit "No result"))))
  | Raises f => inr f
  end.

Module StockCheckService.

Definition url : str := lit "http://192.168.1.248:5001/check_stock".

Definition restock_info (str_other : pyval -> str) (data : dict) : str :=
  if truthy_get data (lit "expected_restock_date")
  then lit " Expected restock date: "
       ++ py_str str_other
            (dict_get_default data (lit "expected_restock_date") PNone)
  else [].

Definition message (str_other : pyval -> str) (buyer_part_number : str)
  (order_quantity_int : Z) (data : dict) : str :=
  if truthy_get data (lit "ItemsInStock")
  then lit "Stock is available for " ++ buyer_part_number
       ++ lit " (Quantity: " ++ str_of_int order_quantity_int ++ lit ")."
       ++ restock_info str_other data
  else lit "Stock is NOT available for " ++ buyer_part_number
       ++ lit " (Quantity: " ++ str_of_int order_quantity_int ++ lit ")."
       ++ restock_info str_other data ++ lit ", please ask_human on how to proceed".

(** Step 6 of [build] once the request is made; [buyer_part_number] is the
    local variable, not stripped. *)
Definition respond (str_other : pyval -> str) (buyer_part_number : str)
  (p : StockCheckTool.params) (r : reply) : result :=
  match r with
  | RequestException text =>
      Data [(lit "error", PStr (lit "Stock check failed: " ++ text))]
        (lit "Error: " ++ text)
  | Body (PDict data) =>
      let message :=
        message str_other buyer_part_number
          (StockCheckTool.p_order_quantity p) data in
      Data [(lit "buyer_part_number", PStr buyer_part_number);
            (lit "order_quantity", PInt (StockCheckTool.p_order_quantity p));
            (lit "requested_fulfillment_date",
             PStr (StockCheckTool.p_requested_fulfillment_date p));
            (lit "message", PStr message)]
        message
  | Body _ => Raises AttributeError
  end.

(** The whole of [build], with [requests.post] as [post]. *)
Definition build (str_other : pyval -> str)
  (post : str -> StockCheckTool.params -> reply) (input_str : str) : result :=
  let input_str := strip input_str in
  let parts := split "," input_str in
  if negb (Nat.eqb (length parts) 3) then error_data StockCheckTool.count_error
  else
    match StockCheckTool.parse_segments parts
            (StockCheckTool.mkph None None None) with
    | inl msg => error_data msg
    | inr ph =>
        match StockCheckTool.validate ph with
        | ErrorData msg => error_data msg
        | Raised e => Raises (Parse e)
        | Params p =>
            respond str_other
              (raw_or_empty (StockCheckTool.buyer_part_number ph)) p
              (post url p)
        end
    end.

(** [process_input], and [check_stock_service], which builds the component
    on its argument and calls it. *)
Definition process_input (str_other : pyval -> str)
  (post : str -> StockCheckTool.params -> reply) (input_str : str)
  : pyval + fault :=
  message_or_error (build str_other post input_str).

Definition check_stock_service := process_input.

End StockCheckService.

Module PriceCheckService.

Definition url : str := lit "http://192.168.1.248:5001/check_price".

Definition no_message : str :=
  lit "No message returned from /check_price endpoint.".

Definition respond (str_other : pyval -> str) (buyer_part_number : str)
  (p : PriceCheckTool.params) (r : reply) : result :=
  match r with
  | RequestException text =>
      Data [(lit "error", PStr (lit "Price check failed: " ++ text))]
        (lit "Error: " ++ text)
  | Body (PDict data) =>
      let message := dict_get_default data (lit "message") (PStr no_message) in
      Data [(lit "buyer_part_number", PStr buyer_part_number);
            (lit "po_price", PFloat (PriceCheckTool.p_po_price p));
            (lit "message", message)]
        (lit "Price check for " ++ buyer_part_number ++ lit ": "
         ++ py_str str_other message)
  | Body _ => Raises AttributeError
  end.

Definition build (str_other : pyval -> str)
  (post : str -> PriceCheckTool.params -> reply) (input_str : str) : result :=
  let input_str := strip input_str in
  let parts := split "," input_str in
  if negb (Nat.eqb (length parts) 2) then error_data PriceCheckTool.count_error
  else
    match PriceCheckTool.parse_segments parts (PriceCheckTool.mkph None None) with
    | inl msg => error_data msg
    | inr ph =>
        match PriceCheckTool.validate ph with
        | ErrorData msg => error_data msg
        | Raised e => Raises (Parse e)
        | Params p =>
            respond str_other
              (raw_or_empty (PriceCheckTool.buyer_part_number ph)) p
              (post url p)
        end
    end.

Definition process_input (str_other : pyval -> str)
  (post : str -> PriceCheckTool.params -> reply) (input_str : str)
  : pyval + fault :=
  message_or_error (build str_other post input_str).

Definition price_check_service := process_input.

End PriceCheckService.

(** ** The credit check tool (checkcredit.py) *)

Module CreditCheckTool.

(** What the request of [build] comes to: the decoded body, or the handler
    that catches the exception raised, in the order of the handlers. *)
Inductive reply :=
| Body (data : pyval)
| ConnectionError
| Timeout
| RequestException (text : str).

Inductive fault := AttributeError | KeyError | TypeError.

Inductive result :=
| Data (data : dict) (status : str)
| Raises (f : fault).

Definition url : str := lit "http://192.168.1.248:5002/buyer_credit_check".

(** [v[key]] for a string key. *)
Definition subscript (v : pyval) (key : str) : pyval + fault :=
  match v with
  | PDict d =>
      match dict_get d key with
      | Some x => inl x
      | None => inr KeyError
      end
  | _ => inr TypeError
  end.

(** Lines 39 to 43: the buyer name taken from the keyword arguments. *)
Definition buyername_of (kwargs : dict) : pyval :=
  let buyername := dict_get_default kwargs (lit "buyername") (PStr []) in
  match kwargs with
  | [(_, PDict d)] =>
      if negb (truthy buyername) then dict_get_default d (lit "buyername") (PStr [])
      else buyername
  | _ => buyername
  end.

(** The body of the [try] statement and its handlers. *)
Definition respond (str_other : pyval -> str) (buyername : str) (r : reply)
  : result :=
  match r with
  | ConnectionError =>
      Data [(lit "error",
             PStr (lit "Failed to connect to credit check service: Connection refused"))]
        (lit "Error: Could not connect to credit check service")
  | Timeout =>
      Data [(lit "error", PStr (lit "Credit check service timed out"))]
        (lit "Error: Credit check service timed out")
  | RequestException text =>
      Data [(lit "error", PStr (lit "Credit check failed: " ++ text))]
        (lit "Error: " ++ text)
  | Body data =>
      match subscript data (lit "data") with
      | inr f => Raises f
      | inl credit_data =>
          match subscript credit_data (lit "company_name"),
                subscript credit_data (lit "credit_score"),
                subscript credit_data (lit "risk_level") with
          | inl company, inl score, inl risk =>
              Data [(lit "buyername", PStr buyername);
                    (lit "company", company);
                    (lit "credit_score", score);
                    (lit "risk_level", risk)]
                (lit "Credit check result for " ++ buyername ++ lit ":"
                 ++ [ascii_of_N 10] ++ lit "Company: " ++ py_str str_other company
                 ++ [ascii_of_N 10] ++ lit "Credit Score: "
                 ++ py_str str_other score
                 ++ [ascii_of_N 10] ++ lit "Risk Level: " ++ py_str str_other risk)
          | inr f, _, _ => Raises f
          | _, inr f, _ => Raises f
          | _, _, inr f => Raises f
          end
      end
  end.

Definition build (str_other : pyval -> str) (get : str -> dict -> reply)
  (kwargs : dict) : result :=
  match buyername_of kwargs with
  | PStr s =>
      let buyername := strip s in
      let buyername := lit "3M Global" in
      match buyername with
      | [] =>
          Data [(lit "error", PStr (lit "No valid buyer name provided"))]
            (lit "Error: No valid buyer name provided")
      | _ =>
          respond str_other buyername
            (get url [(lit "buyername", PStr buyername)])
      end
  | _ => Raises AttributeError
  end.

(** [credit_check_service]: [str(result.data)] is [str_other] of the
    record. *)
Definition credit_check_service (str_other : pyval -> str)
  (get : str -> dict -> reply) (buyername : str) : pyval + fault :=
  match build str_other get [(lit "buyername", PStr buyername)] with
  | Data d _ => inl (dict_get_default d (lit "error") (PStr (str_other (PDict d))))
  | Raises f => inr f
  end.

End CreditCheckTool.

(** ** The documents of the contract tool (contractterms.py) *)

Module ContractPaymentTermsTool.

(** An element of [documents]: a [Data] with its dictionary, or an object
    of another class. *)
Inductive document :=
| IsData (data : dict)
| NotData.

Definition doc_texts (documents : list document) : list pyval :=
  flat_map
    (fun doc =>
       match doc with
       | IsData data => [dict_get_default data (lit "text") (PStr (lit "No content"))]
       | NotData => []
       end)
    documents.

Definition format_documents (str_other : pyval -> str)
  (documents : list document) : str :=
  match documents with
  | [] => lit "No search results found."
  | _ =>
      match doc_texts documents with
      | [] => lit "No valid document content found."
      | texts =>
          join (ascii_of_N 10)
            (map (fun text => lit "- " ++ py_str str_other text) texts)
      end
  end.

End ContractPaymentTermsTool.

(** * Properties *)

(** ** Stripping, splitting and joining *)

Section Strip.
Variable p : ascii -> bool.

Lemma dropwhile_app_stop x c y :
  p c = false -> dropwhile p (x ++ c :: y) = dropwhile p x ++ c :: y.
Proof.
  intro Hc. induction x as [|a x IH]; simpl.
  - now rewrite Hc.
  - destruct (p a); [exact IH | reflexivity].
Qed.

Lemma dropwhile_app x y :
  dropwhile p (x ++ y)
  = match dropwhile p x with [] => dropwhile p y | r => r ++ y end.
Proof.
  induction x as [|a x IH]; simpl; [reflexivity|].
  destruct (p a); [exact IH | reflexivity].
Qed.

Lemma dropwhile_idem s : dropwhile p (dropwhile p s) = dropwhile p s.
Proof.
  induction s as [|a s IH]; simpl; [reflexivity|].
  destruct (p a) eqn:E; [exact IH | simpl; now rewrite E].
Qed.

Lemma dropwhile_In c s : In c (dropwhile p s) -> In c s.
Proof.
  induction s as [|a s IH]; simpl; [tauto|].
  destruct (p a); [auto | simpl; tauto].
Qed.

Lemma dropwhile_head c s : p c = false -> dropwhile p (c :: s) = c :: s.
Proof. intro H. simpl. now rewrite H. Qed.

Lemma dropwhile_head_true c s : p c = true -> dropwhile p (c :: s) = dropwhile p s.
Proof. intro H. simpl. now rewrite H. Qed.

Lemma rstrip_by_app_stop x c y :
  p c = false -> rstrip_by p (x ++ c :: y) = x ++ c :: rstrip_by p y.
Proof.
  intro Hc. unfold rstrip_by.
  rewrite rev_app_distr. simpl. rewrite <- app_assoc. simpl.
  rewrite dropwhile_app_stop by exact Hc.
  rewrite rev_app_distr. simpl. rewrite rev_involutive.
  rewrite <- app_assoc. reflexivity.
Qed.

Lemma rstrip_by_cons c s :
  rstrip_by p (c :: s)
  = match rstrip_by p s with
    | [] => if p c then [] else [c]
    | r => c :: r
    end.
Proof.
  unfold rstrip_by. simpl. rewrite dropwhile_app.
  destruct (dropwhile p (rev s)) as [|a r] eqn:E; simpl.
  - destruct (p c); reflexivity.
  - rewrite rev_app_distr. simpl.
    destruct (rev r ++ [a]) eqn:E2; [|reflexivity].
    now destruct (rev r).
Qed.

Lemma rstrip_by_idem s : rstrip_by p (rstrip_by p s) = rstrip_by p s.
Proof.
  unfold rstrip_by. rewrite rev_involutive, dropwhile_idem. reflexivity.
Qed.

Lemma rstrip_by_In c s : In c (rstrip_by p s) -> In c s.
Proof.
  unfold rstrip_by. intro H. apply in_rev in H. apply dropwhile_In in H.
  now apply in_rev.
Qed.

Lemma lstrip_rstrip_comm s :
  dropwhile p (rstrip_by p s) = rstrip_by p (dropwhile p s).
Proof.
  induction s as [|c s IH]; [reflexivity|].
  rewrite rstrip_by_cons. simpl. destruct (p c) eqn:E.
  - rewrite <- IH. destruct (rstrip_by p s) as [|a r]; [reflexivity|].
    simpl. now rewrite E.
  - rewrite rstrip_by_cons.
    destruct (rstrip_by p s); simpl; now rewrite E.
Qed.

Lemma strip_by_lstrip s : strip_by p (lstrip_by p s) = strip_by p s.
Proof. unfold strip_by, lstrip_by. now rewrite dropwhile_idem. Qed.

Lemma strip_by_rstrip s : strip_by p (rstrip_by p s) = strip_by p s.
Proof.
  unfold strip_by, lstrip_by.
  now rewrite lstrip_rstrip_comm, rstrip_by_idem.
Qed.

Lemma strip_by_idem s : strip_by p (strip_by p s) = strip_by p s.
Proof. unfold strip_by at 2. now rewrite strip_by_rstrip, strip_by_lstrip. Qed.

Lemma strip_by_In c s : In c (strip_by p s) -> In c s.
Proof.
  unfold strip_by, lstrip_by. intro H.
  apply rstrip_by_In in H. now apply dropwhile_In in H.
Qed.

(** A text that neither starts nor ends with a stripped character is left
    alone. *)
Lemma strip_by_fixed c s d :
  p c = false -> p d = false ->
  strip_by p (c :: s ++ [d]) = c :: s ++ [d].
Proof.
  intros Hc Hd. unfold strip_by, lstrip_by.
  rewrite dropwhile_head by exact Hc.
  change (c :: s ++ [d]) with ((c :: s) ++ d :: []).
  rewrite rstrip_by_app_stop by exact Hd. reflexivity.
Qed.
End Strip.

Section Split.
Variable sep : ascii.

Lemma split_not_nil s : split sep s <> [].
Proof.
  destruct s as [|c t]; simpl; [discriminate|].
  destruct (Ascii.eqb c sep); [discriminate|].
  destruct (split sep t); discriminate.
Qed.

Lemma split_no_sep s q : In q (split sep s) -> no_sep sep q.
Proof.
  revert q. induction s as [|c t IH]; simpl; intros q H.
  - destruct H as [<-|[]]. intros [].
  - destruct (Ascii.eqb c sep) eqn:E.
    + destruct H as [<-|H]; [intros [] | now apply IH].
    + destruct (split sep t) as [|h r] eqn:Es.
      * destruct H as [<-|[]]. intros [->|[]]. now rewrite Ascii.eqb_refl in E.
      * destruct H as [<-|H].
        -- intros [->|H']; [now rewrite Ascii.eqb_refl in E|].
           now apply (IH h (or_introl eq_refl)).
        -- apply IH. now right.
Qed.

Lemma split_id a : no_sep sep a -> split sep a = [a].
Proof.
  unfold no_sep. induction a as [|c a IH]; simpl; intro H; [reflexivity|].
  destruct (Ascii.eqb c sep) eqn:E.
  - apply Ascii.eqb_eq in E. tauto.
  - rewrite IH by tauto. reflexivity.
Qed.

Lemma split_app_sep a b :
  no_sep sep a -> split sep (a ++ sep :: b) = a :: split sep b.
Proof.
  unfold no_sep. induction a as [|c a IH]; simpl; intro H.
  - now rewrite Ascii.eqb_refl.
  - destruct (Ascii.eqb c sep) eqn:E.
    + apply Ascii.eqb_eq in E. tauto.
    + rewrite IH by tauto. reflexivity.
Qed.

Lemma join_cons2 a b rest :
  join sep (a :: b :: rest) = a ++ sep :: join sep (b :: rest).
Proof. reflexivity. Qed.

Lemma join_split s : join sep (split sep s) = s.
Proof.
  induction s as [|c t IH]; [reflexivity|]. simpl.
  destruct (Ascii.eqb c sep) eqn:E.
  - apply Ascii.eqb_eq in E. subst c.
    pose proof (split_not_nil t) as Hn.
    destruct (split sep t) as [|h r]; [congruence|].
    rewrite join_cons2, IH. reflexivity.
  - pose proof (split_not_nil t) as Hn.
    destruct (split sep t) as [|h r]; [congruence|].
    rewrite <- IH. destruct r; reflexivity.
Qed.

Lemma split_join ps :
  Forall (no_sep sep) ps -> ps <> [] -> split sep (join sep ps) = ps.
Proof.
  induction 1 as [|a ps Ha Hps IH]; intro Hn; [congruence|].
  destruct ps as [|b rest].
  - simpl. now apply split_id.
  - rewrite join_cons2, split_app_sep by exact Ha.
    rewrite IH by discriminate. reflexivity.
Qed.

Lemma split_Forall s : Forall (no_sep sep) (split sep s).
Proof. apply Forall_forall. intros q. apply split_no_sep. Qed.
End Split.

(** ** Stripping a joined text *)

Section StripJoin.
Variable sep : ascii.
Variable p : ascii -> bool.
Hypothesis p_sep : p sep = false.

Lemma lstrip_join a rest :
  dropwhile p (join sep (a :: rest)) = join sep (dropwhile p a :: rest).
Proof.
  destruct rest as [|b r]; [reflexivity|].
  rewrite !join_cons2. now apply dropwhile_app_stop.
Qed.

Lemma rstrip_join ps :
  rstrip_by p (join sep ps) = join sep (map_last (rstrip_by p) ps).
Proof.
  induction ps as [|a ps IH]; [reflexivity|].
  destruct ps as [|b r]; [reflexivity|].
  rewrite join_cons2, rstrip_by_app_stop by exact p_sep.
  rewrite IH. destruct r; reflexivity.
Qed.

Lemma map_last_Forall (P : str -> Prop) (f : str -> str) ps :
  (forall x, P x -> P (f x)) -> Forall P ps -> Forall P (map_last f ps).
Proof.
  intros Hf. induction 1 as [|a ps Ha Hps IH]; [constructor|].
  destruct ps as [|b r]; simpl.
  - constructor; auto.
  - constructor; [exact Ha | exact IH].
Qed.

Lemma map_last_length (f : str -> str) ps :
  length (map_last f ps) = length ps.
Proof.
  induction ps as [|a ps IH]; [reflexivity|].
  destruct ps; simpl in *; congruence.
Qed.

Lemma map_map_last (g f : str -> str) ps :
  (forall x, g (f x) = g x) -> map g (map_last f ps) = map g ps.
Proof.
  intro H. induction ps as [|a ps IH]; [reflexivity|].
  destruct ps as [|b r]; simpl in *; [now rewrite H | congruence].
Qed.
End StripJoin.

Lemma isspace_comma : isspace "," = false.
Proof. reflexivity. Qed.

Lemma isspace_equals : isspace "=" = false.
Proof. reflexivity. Qed.

Lemma isspace_dq : isspace dq = false.
Proof. reflexivity. Qed.

Lemma no_sep_lstrip sep p s : no_sep sep s -> no_sep sep (lstrip_by p s).
Proof. unfold no_sep, lstrip_by. intros H Hin. apply H. eapply dropwhile_In; eauto. Qed.

Lemma no_sep_rstrip sep p s : no_sep sep s -> no_sep sep (rstrip_by p s).
Proof. unfold no_sep. intros H Hin. apply H. eapply rstrip_by_In; eauto. Qed.

Lemma strip_join ps :
  ps <> [] -> strip (join "," ps) = join "," (trim_ends ps).
Proof.
  destruct ps as [|a rest]; [congruence|]. intros _.
  unfold strip, strip_by, lstrip_by, trim_ends.
  rewrite lstrip_join by exact isspace_comma.
  apply rstrip_join. exact isspace_comma.
Qed.

Lemma trim_ends_Forall ps :
  Forall (no_sep ",") ps -> Forall (no_sep ",") (trim_ends ps).
Proof.
  destruct 1 as [|a rest Ha Hr]; [constructor|].
  unfold trim_ends. apply map_last_Forall.
  - intros x. apply no_sep_rstrip.
  - constructor; [now apply no_sep_lstrip | exact Hr].
Qed.

Lemma trim_ends_length ps : length (trim_ends ps) = length ps.
Proof.
  destruct ps as [|a rest]; [reflexivity|].
  unfold trim_ends. now rewrite map_last_length.
Qed.

Lemma trim_ends_not_nil ps : ps <> [] -> trim_ends ps <> [].
Proof.
  intros H E. apply (f_equal (@length str)) in E.
  rewrite trim_ends_length in E. destruct ps; [congruence | discriminate].
Qed.

(** The segments [build] sees for a joined input. *)
Lemma split_strip_join ps :
  Forall (no_sep ",") ps -> ps <> [] ->
  split "," (strip (join "," ps)) = trim_ends ps.
Proof.
  intros Hf Hn. rewrite strip_join by exact Hn.
  apply split_join; [now apply trim_ends_Forall | now apply trim_ends_not_nil].
Qed.

Lemma strip_lstrip s : strip (lstrip_by isspace s) = strip s.
Proof. apply strip_by_lstrip. Qed.

Lemma strip_rstrip s : strip (rstrip_by isspace s) = strip s.
Proof. apply strip_by_rstrip. Qed.

Lemma strip_strip s : strip (strip s) = strip s.
Proof. apply strip_by_idem. Qed.

Lemma map_strip_trim_ends ps : map strip (trim_ends ps) = map strip ps.
Proof.
  destruct ps as [|a rest]; [reflexivity|].
  unfold trim_ends. rewrite map_map_last by apply strip_rstrip.
  simpl. now rewrite strip_lstrip.
Qed.

(** ** One segment *)

Lemma segment_fields_strip part :
  segment_fields (strip part) = segment_fields part.
Proof. unfold segment_fields. now rewrite strip_strip. Qed.

Lemma segment_fields_ext a b :
  strip a = strip b -> segment_fields a = segment_fields b.
Proof. unfold segment_fields. now intros ->. Qed.

Lemma map_segment_fields_ext ps qs :
  map strip ps = map strip qs -> map segment_fields ps = map segment_fields qs.
Proof.
  revert qs. induction ps as [|a ps IH]; intros [|b qs] H; try discriminate.
  - reflexivity.
  - simpl in *. injection H as H1 H2.
    now rewrite (segment_fields_ext _ _ H1), (IH _ H2).
Qed.

Lemma split_maxsplit1_app_sep sep a b :
  no_sep sep a -> split_maxsplit1 sep (a ++ sep :: b) = [a; b].
Proof.
  unfold no_sep. induction a as [|c a IH]; simpl; intro H.
  - now rewrite Ascii.eqb_refl.
  - destruct (Ascii.eqb c sep) eqn:E.
    + apply Ascii.eqb_eq in E. tauto.
    + rewrite IH by tauto. reflexivity.
Qed.

(** A segment whose text before the first equals sign is [k] has the key
    [k] stripped, and the value text stripped of white space, then of
    quotes. *)
Lemma segment_fields_assign k v :
  no_sep "=" k ->
  segment_fields (k ++ "="%char :: v)
  = Some (strip k, strip_chars dq (strip v)).
Proof.
  intro Hk. unfold segment_fields.
  assert (E : strip (k ++ "="%char :: v)
              = lstrip_by isspace k ++ "="%char :: rstrip_by isspace v).
  { unfold strip, strip_by, lstrip_by.
    rewrite dropwhile_app_stop by exact isspace_equals.
    now rewrite rstrip_by_app_stop by exact isspace_equals. }
  rewrite E, split_maxsplit1_app_sep by now apply no_sep_lstrip.
  now rewrite strip_lstrip, strip_rstrip.
Qed.

Lemma strip_quoted s : strip (quoted s) = quoted s.
Proof. apply strip_by_fixed; exact isspace_dq. Qed.

(** Every quote at either end goes: quoting once more changes nothing. *)
Lemma strip_chars_quoted s : strip_chars dq (quoted s) = strip_chars dq s.
Proof.
  unfold strip_chars, strip_by, lstrip_by, quoted.
  rewrite dropwhile_head_true by apply Ascii.eqb_refl.
  rewrite dropwhile_app.
  destruct (dropwhile (Ascii.eqb dq) s) as [|c r] eqn:E.
  - reflexivity.
  - unfold rstrip_by. rewrite rev_app_distr. reflexivity.
Qed.

Lemma strip_chars_fixed ch s :
  hd_error s <> Some ch -> hd_error (rev s) <> Some ch ->
  strip_chars ch s = s.
Proof.
  intros H1 H2. unfold strip_chars, strip_by, lstrip_by, rstrip_by.
  assert (E1 : dropwhile (Ascii.eqb ch) s = s).
  { destruct s as [|c t]; [reflexivity|]. simpl.
    destruct (Ascii.eqb ch c) eqn:E; [|reflexivity].
    apply Ascii.eqb_eq in E. subst c. now elim H1. }
  rewrite E1.
  assert (E2 : dropwhile (Ascii.eqb ch) (rev s) = rev s).
  { destruct (rev s) as [|c t]; [reflexivity|]. simpl.
    destruct (Ascii.eqb ch c) eqn:E; [|reflexivity].
    apply Ascii.eqb_eq in E. subst c. now elim H2. }
  rewrite E2. apply rev_involutive.
Qed.

(** ** Permutations of two and three segments *)

Lemma Permutation_length_3_inv {A} (a b c : A) l :
  Permutation l [a; b; c] ->
  l = [a; b; c] \/ l = [a; c; b] \/ l = [b; a; c]
  \/ l = [b; c; a] \/ l = [c; a; b] \/ l = [c; b; a].
Proof.
  intro H. pose proof (Permutation_length H) as Hl.
  destruct l as [|x [|y [|z [|? ?]]]]; try discriminate Hl.
  assert (Hx : In x [a; b; c]) by (eapply Permutation_in; [exact H | now left]).
  destruct Hx as [<-|[<-|[<-|[]]]].
  - apply Permutation_cons_inv in H. apply Permutation_sym in H.
    apply Permutation_length_2_inv in H. destruct H as [->| ->]; tauto.
  - assert (H' : Permutation (b :: [y; z]) (b :: [a; c])).
    { eapply Permutation_trans; [exact H | apply perm_swap]. }
    apply Permutation_cons_inv in H'. apply Permutation_sym in H'.
    apply Permutation_length_2_inv in H'. destruct H' as [->| ->]; tauto.
  - assert (H' : Permutation (c :: [y; z]) (c :: [a; b])).
    { eapply Permutation_trans; [exact H |].
      apply Permutation_sym. apply (Permutation_cons_append [a; b] c). }
    apply Permutation_cons_inv in H'. apply Permutation_sym in H'.
    apply Permutation_length_2_inv in H'. destruct H' as [->| ->]; tauto.
Qed.

Lemma Permutation_Forall_no_sep sep (ps ps' : list str) :
  Permutation ps' ps -> Forall (no_sep sep) ps -> Forall (no_sep sep) ps'.
Proof.
  intros Hp Hf. apply Forall_forall. intros x Hx.
  rewrite Forall_forall in Hf. apply Hf.
  eapply Permutation_in; eauto.
Qed.

Lemma no_sep_check sep s :
  forallb (fun c => negb (Ascii.eqb c sep)) s = true -> no_sep sep s.
Proof.
  unfold no_sep. induction s as [|c s IH]; simpl; [tauto|].
  intros H [->|Hin].
  - now rewrite Ascii.eqb_refl in H.
  - apply andb_prop in H. tauto.
Qed.

Lemma no_sep_app sep a b : no_sep sep a -> no_sep sep b -> no_sep sep (a ++ b).
Proof. unfold no_sep. intros Ha Hb H. apply in_app_or in H. tauto. Qed.

Lemma no_sep_cons sep c s : c <> sep -> no_sep sep s -> no_sep sep (c :: s).
Proof. unfold no_sep. intros Hc Hs [H|H]; congruence || tauto. Qed.

(** ** The built-ins never raise more than the model says *)

Lemma float_from_string_inner_exc s e :
  float_from_string_inner s = Exc e -> e = ValueError.
Proof.
  unfold float_from_string_inner.
  destruct (lstrip_by Py_ISSPACE s); [congruence|].
  destruct (PyOS_ascii_strtod _) as [[x [|? ?]]|]; congruence.
Qed.

(** [float] of a string raises nothing but [ValueError]. *)
Lemma float_str_exc s e : float (Some s) = Exc e -> e = ValueError.
Proof.
  unfold float, string_to_number_with_underscores.
  destruct (strchr _ _).
  - destruct (remove_underscores _ _); [apply float_from_string_inner_exc | congruence].
  - apply float_from_string_inner_exc.
Qed.

(** ** The segment loop and the validation of the inventory tool *)

Module StockFacts.
Import StockCheckTool.

Lemma stock_parse_segments_ok_ext ps : forall qs ph ph',
  map segment_fields ps = map segment_fields qs ->
  parse_segments ps ph = inr ph' -> parse_segments qs ph = inr ph'.
Proof.
  induction ps as [|a ps IH]; intros [|b qs] ph ph' Hm H; try discriminate Hm.
  - exact H.
  - simpl in Hm. injection Hm as Ha Hm.
    simpl in *. rewrite <- Ha.
    destruct (segment_fields a) as [[k v]|]; [|discriminate].
    destruct (str_eqb k _); [now apply IH|].
    destruct (str_eqb k _); [now apply IH|].
    destruct (str_eqb k _); [now apply IH | discriminate].
Qed.

(** What one segment does to the loop, whatever follows it. *)
Lemma stock_parse_segments_cons_cases part :
  (exists e, forall rest ph, parse_segments (part :: rest) ph = inl e)
  \/ (exists v, forall rest ph,
        parse_segments (part :: rest) ph
        = parse_segments rest
            (mkph (Some v) (order_quantity ph) (requested_fulfillment_date ph)))
  \/ (exists v, forall rest ph,
        parse_segments (part :: rest) ph
        = parse_segments rest
            (mkph (buyer_part_number ph) (Some v) (requested_fulfillment_date ph)))
  \/ (exists v, forall rest ph,
        parse_segments (part :: rest) ph
        = parse_segments rest
            (mkph (buyer_part_number ph) (order_quantity ph) (Some v))).
Proof.
  simpl. destruct (segment_fields part) as [[k v]|]; [|eauto].
  destruct (str_eqb k _); [eauto|].
  destruct (str_eqb k _); [eauto 6|].
  destruct (str_eqb k _); [eauto 8 | eauto].
Qed.

Lemma stock_try_formats_None fmt rest :
  try_formats (fmt :: rest) None = Exc TypeError.
Proof. reflexivity. Qed.

(** Parameters come out only when every placeholder was assigned. *)
Lemma stock_validate_params_assigned ph r :
  validate ph = Params r ->
  exists a b c, ph = mkph (Some a) (Some b) (Some c).
Proof.
  destruct ph as [a b c]. unfold validate.
  cbn [buyer_part_number order_quantity requested_fulfillment_date].
  intro H.
  destruct a as [a|]; [|cbn [is_blank] in H; discriminate].
  destruct (is_blank (Some a)); [discriminate|].
  destruct b as [b|]; [|cbn [float bind] in H; discriminate].
  destruct (bind _ _) as [n|[]]; try discriminate.
  destruct (n <=? 0); [discriminate|].
  destruct c as [c|]; [eauto|].
  unfold tried_formats in H. rewrite stock_try_formats_None in H. discriminate.
Qed.

(** Three segments that lead to parameters can come in any order. *)
Lemma stock_parse_segments_permutation a b c l ph r :
  Permutation l [a; b; c] ->
  parse_segments [a; b; c] (mkph None None None) = inr ph ->
  validate ph = Params r ->
  parse_segments l (mkph None None None) = inr ph.
Proof.
  intros Hp H Hv.
  apply stock_validate_params_assigned in Hv. destruct Hv as (va & vb & vc & ->).
  destruct (stock_parse_segments_cons_cases a) as [[ea Ha]|[[xa Ha]|[[xa Ha]|[xa Ha]]]];
  destruct (stock_parse_segments_cons_cases b) as [[eb Hb]|[[xb Hb]|[[xb Hb]|[xb Hb]]]];
  destruct (stock_parse_segments_cons_cases c) as [[ec Hc]|[[xc Hc]|[[xc Hc]|[xc Hc]]]];
  rewrite ?Ha, ?Hb, ?Hc in H; try discriminate H;
  simpl in H; try discriminate H;
  injection H as -> -> ->;
  apply Permutation_length_3_inv in Hp;
  destruct Hp as [->|[->|[->|[->|[->| ->]]]]];
  repeat (rewrite Ha || rewrite Hb || rewrite Hc); reflexivity.
Qed.
End StockFacts.

(** ** The segment loop and the validation of the price tool *)

Module PriceFacts.
Import PriceCheckTool.

Lemma price_parse_segments_ok_ext ps : forall qs ph ph',
  map segment_fields ps = map segment_fields qs ->
  parse_segments ps ph = inr ph' -> parse_segments qs ph = inr ph'.
Proof.
  induction ps as [|a ps IH]; intros [|b qs] ph ph' Hm H; try discriminate Hm.
  - exact H.
  - simpl in Hm. injection Hm as Ha Hm.
    simpl in *. rewrite <- Ha.
    destruct (segment_fields a) as [[k v]|]; [|discriminate].
    destruct (str_eqb k _); [now apply IH|].
    destruct (str_eqb k _); [now apply IH | discriminate].
Qed.

Lemma price_parse_segments_cons_cases part :
  (exists e, forall rest ph, parse_segments (part :: rest) ph = inl e)
  \/ (exists v, forall rest ph,
        parse_segments (part :: rest) ph
        = parse_segments rest (mkph (Some v) (po_price_str ph)))
  \/ (exists v, forall rest ph,
        parse_segments (part :: rest) ph
        = parse_segments rest (mkph (buyer_part_number ph) (Some v))).
Proof.
  simpl. destruct (segment_fields part) as [[k v]|]; [|eauto].
  destruct (str_eqb k _); [eauto|].
  destruct (str_eqb k _); [eauto 6 | eauto].
Qed.

Lemma price_validate_params_assigned ph r :
  validate ph = Params r -> exists a b, ph = mkph (Some a) (Some b).
Proof.
  destruct ph as [a b]. unfold validate.
  cbn [buyer_part_number po_price_str]. intro H.
  destruct a as [a|]; [|cbn [is_blank] in H; discriminate].
  destruct (is_blank (Some a)); [discriminate|].
  destruct b as [b|]; [eauto|]. cbn [float] in H. discriminate.
Qed.

Lemma price_parse_segments_permutation a b l ph r :
  Permutation l [a; b] ->
  parse_segments [a; b] (mkph None None) = inr ph ->
  validate ph = Params r ->
  parse_segments l (mkph None None) = inr ph.
Proof.
  intros Hp H Hv.
  apply price_validate_params_assigned in Hv. destruct Hv as (va & vb & ->).
  destruct (price_parse_segments_cons_cases a) as [[ea Ha]|[[xa Ha]|[xa Ha]]];
  destruct (price_parse_segments_cons_cases b) as [[eb Hb]|[[xb Hb]|[xb Hb]]];
  rewrite ?Ha, ?Hb in H; try discriminate H;
  simpl in H; try discriminate H;
  injection H as -> ->;
  apply Permutation_sym, Permutation_length_2_inv in Hp;
  destruct Hp as [->| ->];
  repeat (rewrite Ha || rewrite Hb); reflexivity.
Qed.
End PriceFacts.

(** ** [build] on a joined input *)

Lemma comma_space_2 a b : comma_space [a; b] = join "," [a; " "%char :: b].
Proof. unfold comma_space. simpl. now rewrite app_nil_r. Qed.

Lemma comma_space_3 a b c :
  comma_space [a; b; c] = join "," [a; " "%char :: b; " "%char :: c].
Proof. unfold comma_space. simpl. now rewrite app_nil_r. Qed.

Lemma no_sep_quoted sep s : sep <> dq -> no_sep sep s -> no_sep sep (quoted s).
Proof.
  intros Hd Hs. unfold quoted. apply no_sep_cons; [congruence|].
  apply no_sep_app; [exact Hs|]. apply no_sep_cons; [congruence | intros []].
Qed.

Lemma comma_not_dq : ","%char <> dq.
Proof. discriminate. Qed.

Lemma map_segment_fields_trim_ends ps :
  map segment_fields (trim_ends ps) = map segment_fields ps.
Proof. apply map_segment_fields_ext, map_strip_trim_ends. Qed.

Module StockBuild.
Import StockCheckTool StockFacts.

Lemma stock_build_strip input : build (strip input) = build input.
Proof. unfold build. now rewrite strip_strip. Qed.

(** On a joined input the loop runs over the pieces themselves. *)
Lemma stock_build_join ps :
  Forall (no_sep ",") ps -> ps <> [] ->
  build (join "," ps)
  = if negb (Nat.eqb (length ps) 3) then ErrorData count_error
    else match parse_segments (trim_ends ps) (mkph None None None) with
         | inl msg => ErrorData msg
         | inr ph => validate ph
         end.
Proof.
  intros Hf Hn. unfold build.
  now rewrite split_strip_join, trim_ends_length.
Qed.

Lemma stock_build_join_ok ps ph :
  Forall (no_sep ",") ps -> length ps = 3%nat ->
  parse_segments ps (mkph None None None) = inr ph ->
  build (join "," ps) = validate ph.
Proof.
  intros Hf Hl H.
  rewrite stock_build_join; [|exact Hf | intros ->; discriminate].
  rewrite Hl. cbn [Nat.eqb negb].
  rewrite (stock_parse_segments_ok_ext ps (trim_ends ps) _ ph); auto.
  symmetry. apply map_segment_fields_trim_ends.
Qed.

Lemma stock_build_join_params ps r :
  Forall (no_sep ",") ps -> ps <> [] ->
  build (join "," ps) = Params r ->
  length ps = 3%nat /\
  exists ph, parse_segments ps (mkph None None None) = inr ph
             /\ validate ph = Params r.
Proof.
  intros Hf Hn. rewrite stock_build_join by assumption.
  destruct (Nat.eqb (length ps) 3) eqn:E; cbn [negb]; [|discriminate].
  apply Nat.eqb_eq in E.
  destruct (parse_segments (trim_ends ps) _) as [msg|ph] eqn:Ep; [discriminate|].
  intro Hv. split; [exact E|]. exists ph. split; [|exact Hv].
  apply (stock_parse_segments_ok_ext (trim_ends ps)); auto.
  apply map_segment_fields_trim_ends.
Qed.

Lemma stock_build_join_permutation ps ps' r :
  Forall (no_sep ",") ps -> ps <> [] -> Permutation ps' ps ->
  build (join "," ps) = Params r -> build (join "," ps') = Params r.
Proof.
  intros Hf Hn Hp Hb.
  destruct (stock_build_join_params ps r Hf Hn Hb) as (Hl & ph & Hps & Hv).
  destruct ps as [|a [|b [|c [|? ?]]]]; try discriminate Hl.
  rewrite (stock_build_join_ok ps' ph); auto.
  - eapply Permutation_Forall_no_sep; eauto.
  - now rewrite (Permutation_length Hp).
  - eapply stock_parse_segments_permutation; eauto.
Qed.
End StockBuild.

Module PriceBuild.
Import PriceCheckTool PriceFacts.

Lemma price_build_strip input : build (strip input) = build input.
Proof. unfold build. now rewrite strip_strip. Qed.

Lemma price_build_join ps :
  Forall (no_sep ",") ps -> ps <> [] ->
  build (join "," ps)
  = if negb (Nat.eqb (length ps) 2) then ErrorData count_error
    else match parse_segments (trim_ends ps) (mkph None None) with
         | inl msg => ErrorData msg
         | inr ph => validate ph
         end.
Proof.
  intros Hf Hn. unfold build.
  now rewrite split_strip_join, trim_ends_length.
Qed.

Lemma price_build_join_ok ps ph :
  Forall (no_sep ",") ps -> length ps = 2%nat ->
  parse_segments ps (mkph None None) = inr ph ->
  build (join "," ps) = validate ph.
Proof.
  intros Hf Hl H.
  rewrite price_build_join; [|exact Hf | intros ->; discriminate].
  rewrite Hl. cbn [Nat.eqb negb].
  rewrite (price_parse_segments_ok_ext ps (trim_ends ps) _ ph); auto.
  symmetry. apply map_segment_fields_trim_ends.
Qed.

Lemma price_build_join_params ps r :
  Forall (no_sep ",") ps -> ps <> [] ->
  build (join "," ps) = Params r ->
  length ps = 2%nat /\
  exists ph, parse_segments ps (mkph None None) = inr ph
             /\ validate ph = Params r.
Proof.
  intros Hf Hn. rewrite price_build_join by assumption.
  destruct (Nat.eqb (length ps) 2) eqn:E; cbn [negb]; [|discriminate].
  apply Nat.eqb_eq in E.
  destruct (parse_segments (trim_ends ps) _) as [msg|ph] eqn:Ep; [discriminate|].
  intro Hv. split; [exact E|]. exists ph. split; [|exact Hv].
  apply (price_parse_segments_ok_ext (trim_ends ps)); auto.
  apply map_segment_fields_trim_ends.
Qed.

Lemma price_build_join_permutation ps ps' r :
  Forall (no_sep ",") ps -> ps <> [] -> Permutation ps' ps ->
  build (join "," ps) = Params r -> build (join "," ps') = Params r.
Proof.
  intros Hf Hn Hp Hb.
  destruct (price_build_join_params ps r Hf Hn Hb) as (Hl & ph & Hps & Hv).
  destruct ps as [|a [|b [|? ?]]]; try discriminate Hl.
  rewrite (price_build_join_ok ps' ph); auto.
  - eapply Permutation_Forall_no_sep; eauto.
  - now rewrite (Permutation_length Hp).
  - eapply price_parse_segments_permutation; eauto.
Qed.

(** The loop on the two segments of a price input. *)
Lemma price_parse_segments_price_input part price :
  parse_segments
    [assign "buyer_part_number" part; " "%char :: assign "po_price" price]
    (mkph None None)
  = inr (mkph (Some (strip_chars dq part)) (Some (strip_chars dq price))).
Proof.
  unfold assign. cbn [parse_segments].
  rewrite segment_fields_assign by (apply no_sep_check; reflexivity).
  change (" "%char :: lit "po_price" ++ "="%char :: quoted price)
    with ((" "%char :: lit "po_price") ++ "="%char :: quoted price).
  rewrite segment_fields_assign by (apply no_sep_check; reflexivity).
  rewrite !strip_quoted, !strip_chars_quoted.
  reflexivity.
Qed.
End PriceBuild.

(** ** Dates written with [strftime] and read back with [strptime] *)

Lemma Z_range_cases (P : Z -> Prop) (lo : Z) (n : nat) :
  (forall i, (i < n)%nat -> P (lo + Z.of_nat i)) ->
  forall z, lo <= z < lo + Z.of_nat n -> P z.
Proof.
  intros H z Hz.
  replace z with (lo + Z.of_nat (Z.to_nat (z - lo))) by lia.
  apply H. lia.
Qed.

Lemma digit_char_cases n :
  exists k, (k < 10)%nat /\ digit_char n = digit_char (Z.of_nat k)
            /\ n mod 10 = Z.of_nat k.
Proof.
  exists (Z.to_nat (n mod 10)).
  pose proof (Z.mod_pos_bound n 10 ltac:(lia)) as Hb.
  repeat split; [lia | | lia].
  unfold digit_char. rewrite Z2Nat.id by lia.
  now rewrite Z.mod_mod by lia.
Qed.

Ltac digit_cases n :=
  let k := fresh "k" in
  let Hk := fresh "Hk" in
  let E := fresh "E" in
  let Em := fresh "Em" in
  destruct (digit_char_cases n) as (k & Hk & E & Em);
  rewrite E;
  do 10 (destruct k as [|k]; [reflexivity || (simpl in Em; vm_compute; lia)|]);
  exfalso; lia.

Lemma is_digit_digit_char n : is_digit (digit_char n) = true.
Proof. digit_cases n. Qed.

Lemma isspace_digit_char n : isspace (digit_char n) = false.
Proof. digit_cases n. Qed.

Lemma digit_val_digit_char n : digit_val (digit_char n) = n mod 10.
Proof.
  destruct (digit_char_cases n) as (k & Hk & E & Em). rewrite E, Em.
  do 10 (destruct k as [|k]; [reflexivity|]). exfalso; lia.
Qed.

Lemma strip_zfill2 n : strip (zfill2 n) = zfill2 n.
Proof.
  unfold zfill2.
  apply (strip_by_fixed isspace (digit_char (n / 10)) [] (digit_char n));
    apply isspace_digit_char.
Qed.

Lemma strip_zfill4 n : strip (zfill4 n) = zfill4 n.
Proof.
  unfold zfill4.
  apply (strip_by_fixed isspace (digit_char (n / 1000))
           [digit_char (n / 100); digit_char (n / 10)] (digit_char n));
    apply isspace_digit_char.
Qed.

Lemma int_of_group_zfill2 n : 0 <= n < 100 -> int_of_group (zfill2 n) = n.
Proof.
  intro H. unfold int_of_group. rewrite strip_zfill2.
  unfold zfill2, decimal. cbn [fold_left].
  rewrite !digit_val_digit_char.
  Z.to_euclidean_division_equations. lia.
Qed.

Lemma int_of_group_zfill4 n : 0 <= n < 10000 -> int_of_group (zfill4 n) = n.
Proof.
  intro H. unfold int_of_group. rewrite strip_zfill4.
  unfold zfill4, decimal. cbn [fold_left].
  rewrite !digit_val_digit_char.
  Z.to_euclidean_division_equations. lia.
Qed.

(** ** The expressions of the two formats on a date written back *)

Lemma pattern_mdy :
  pattern (lit "%m/%d/%y")
  = [Group "m" (TimeRE "m"); Literal "/"; Group "d" (TimeRE "d");
     Literal "/"; Group "y" (TimeRE "y")].
Proof. reflexivity. Qed.

Lemma pattern_mdY :
  pattern (lit "%m/%d/%Y")
  = [Group "m" (TimeRE "m"); Literal "/"; Group "d" (TimeRE "d");
     Literal "/"; Group "Y" (TimeRE "Y")].
Proof. reflexivity. Qed.



Lemma re_match_year4 y found :
  re_match [Group "Y" (TimeRE "Y")] (zfill4 y) found
  = Some (("Y"%char, zfill4 y) :: found, []).
Proof.
  unfold zfill4. cbn -[digit_char].
  rewrite !is_digit_digit_char. reflexivity.
Qed.

Lemma re_match_year2_of_4 y found :
  re_match [Group "y" (TimeRE "y")] (zfill4 y) found
  = Some (("y"%char, [digit_char (y / 1000); digit_char (y / 100)]) :: found,
          [digit_char (y / 10); digit_char y]).
Proof.
  unfold zfill4. cbn -[digit_char].
  rewrite !is_digit_digit_char. reflexivity.
Qed.

Lemma datetime_date_inv y m d dt :
  datetime_date y m d = Val dt ->
  dt = mkdate y m d /\ 1 <= y <= 9999 /\ 1 <= m <= 12 /\ 1 <= d <= 31.
Proof.
  unfold datetime_date.
  destruct (_ && _) eqn:E; [|discriminate].
  intro H. injection H as <-.
  repeat (apply andb_prop in E; destruct E as [E ?]).
  assert (days_in_month y m <= 31).
  { unfold days_in_month.
    destruct (m =? 2); [destruct (is_leap y); lia|].
    destruct (_ || _); lia. }
  repeat split; lia.
Qed.

(** A date that [strptime] returns passed the checks of its constructor. *)
Lemma strptime_inv x fmt dt :
  strptime x fmt = Val dt ->
  datetime_date (year dt) (month dt) (day dt) = Val dt.
Proof.
  unfold strptime. destruct x as [s|]; [|discriminate].
  destruct (re_match _ _ _) as [[found [|? ?]]|]; try discriminate.
  set (y := match found_dict found "y" with Some _ => _ | None => _ end).
  set (m := match found_dict found "m" with Some _ => _ | None => _ end).
  set (d := match found_dict found "d" with Some _ => _ | None => _ end).
  intro H. destruct (datetime_date_inv _ _ _ _ H) as (-> & _). exact H.
Qed.

Lemma try_formats_inv x dt :
  StockCheckTool.try_formats StockCheckTool.tried_formats x = Val (Some dt) ->
  datetime_date (year dt) (month dt) (day dt) = Val dt.
Proof.
  unfold StockCheckTool.tried_formats. cbn [StockCheckTool.try_formats].
  destruct (strptime x (lit "%m/%d/%y")) as [d1|[]] eqn:E1; try discriminate.
  - intro H. injection H as <-. eapply strptime_inv; eauto.
  - destruct (strptime x (lit "%m/%d/%Y")) as [d2|[]] eqn:E2; try discriminate.
    intro H. injection H as <-. eapply strptime_inv; eauto.
Qed.




(** ** The year as [strftime] writes it *)

Lemma str_eqb_eq a : forall b, str_eqb a b = true <-> a = b.
Proof.
  induction a as [|x a IH]; intros [|y b]; simpl; split; try easy.
  - intro H. apply andb_prop in H. destruct H as [H1 H2].
    apply Ascii.eqb_eq in H1. apply IH in H2. congruence.
  - intro H. injection H as -> ->. rewrite Ascii.eqb_refl. now apply IH.
Qed.

Lemma year_text_check :
  forallb
    (fun i =>
       let y := 1 + Z.of_nat i in
       if y <? 1000 then Nat.leb (length (str_of_int y)) 3
       else str_eqb (str_of_int y) (zfill4 y))
    (seq 0 (Z.to_nat 9999)) = true.
Proof. vm_compute. reflexivity. Qed.

(** Below 1000 the year takes three characters at most; from 1000 on it is
    the four digits of [zfill4]. *)
Lemma year_text_cases y :
  1 <= y <= 9999 ->
  (y < 1000 /\ (length (str_of_int y) <= 3)%nat)
  \/ (1000 <= y /\ str_of_int y = zfill4 y).
Proof.
  intro Hy. pose proof year_text_check as C.
  rewrite forallb_forall in C.
  specialize (C (Z.to_nat (y - 1))).
  replace (1 + Z.of_nat (Z.to_nat (y - 1))) with y in C by lia.
  cbv zeta in C.
  assert (Hin : In (Z.to_nat (y - 1)) (seq 0 (Z.to_nat 9999)))
    by (apply in_seq; lia).
  specialize (C Hin).
  destruct (Z.ltb_spec y 1000) as [L|L].
  - left. split; [exact L|]. now apply Nat.leb_le.
  - right. split; [exact L|]. now apply str_eqb_eq.
Qed.

Lemma strftime_written dt :
  strftime dt (lit "%Y-%m-%d")
  = written_date (year dt) (month dt) (day dt).
Proof. destruct dt. reflexivity. Qed.

Lemma written_date_length y m d :
  length (written_date y m d) = (length (str_of_int y) + 6)%nat.
Proof.
  unfold written_date. rewrite length_app. simpl. lia.
Qed.

Lemma written_date_iso y m d :
  1000 <= y <= 9999 -> written_date y m d = iso_text y m d.
Proof.
  intro Hy. unfold written_date, iso_text.
  destruct (year_text_cases y ltac:(lia)) as [[L _]|[_ ->]]; [lia | reflexivity].
Qed.


(** ** The segment count *)

(** C3: the count of comma-separated segments of the stripped input is
    checked before any segment is looked at: when it is not 3, the inventory
    tool answers with its segment-count message, and when it is not 2, the
    price tool answers with its own. *)
Theorem segment_count_checked_first (input : str) :
  (length (split "," (strip input)) <> 3%nat ->
   StockCheckTool.build input = ErrorData StockCheckTool.count_error)
  /\ (length (split "," (strip input)) <> 2%nat ->
      PriceCheckTool.build input = ErrorData PriceCheckTool.count_error).
Proof.
  split; intro H.
  - unfold StockCheckTool.build.
    destruct (Nat.eqb_spec (length (split "," (strip input))) 3) as [E|E];
      [contradiction | reflexivity].
  - unfold PriceCheckTool.build.
    destruct (Nat.eqb_spec (length (split "," (strip input))) 2) as [E|E];
      [contradiction | reflexivity].
Qed.

(** The right keys followed by one stray comma: four segments for the
    inventory tool, three for the price tool, hence the count message. *)
Lemma stray_comma_is_a_count_error :
  StockCheckTool.build
    (inventory_input "3010228002" "32100.000" "02/13/2025" ++ [","%char])
  = ErrorData StockCheckTool.count_error
  /\ PriceCheckTool.build (price_input "3010228002" "125.50" ++ [","%char])
     = ErrorData PriceCheckTool.count_error.
Proof.
  split.
  - apply (proj1 (segment_count_checked_first
                    (inventory_input "3010228002" "32100.000" "02/13/2025"
                     ++ [","%char]))).
    vm_compute. discriminate.
  - apply (proj2 (segment_count_checked_first
                    (price_input "3010228002" "125.50" ++ [","%char]))).
    vm_compute. discriminate.
Defined.

(** ** Quotes around a value *)

(** C2, as the code has it: every double quote at either end of the value
    goes, not one layer.  A value [s] inside one pair of quotes gives [s]
    without the quotes at its own ends, inside two pairs it gives the same,
    and a text that neither starts nor ends with a quote is kept as it is,
    whatever it has inside. *)
Theorem quotes_stripped_at_both_ends (k s : str) :
  no_sep "=" k ->
  segment_fields (k ++ "="%char :: quoted s) = Some (strip k, strip_chars dq s)
  /\ segment_fields (k ++ "="%char :: quoted (quoted s))
     = Some (strip k, strip_chars dq s)
  /\ (hd_error s <> Some dq -> hd_error (rev s) <> Some dq ->
      strip_chars dq s = s).
Proof.
  intro Hk. repeat split.
  - rewrite segment_fields_assign by exact Hk.
    now rewrite strip_quoted, strip_chars_quoted.
  - rewrite segment_fields_assign by exact Hk.
    now rewrite strip_quoted, !strip_chars_quoted.
  - apply strip_chars_fixed.
Qed.

Lemma quotes_stripped_witness :
  no_sep "=" (lit "po_price")
  /\ segment_fields (lit "po_price" ++ "="%char :: quoted (lit "125.50"))
     = Some (strip (lit "po_price"), strip_chars dq (lit "125.50")).
Proof.
  assert (H : no_sep "=" (lit "po_price")) by (apply no_sep_check; reflexivity).
  split; [exact H|].
  exact (proj1 (quotes_stripped_at_both_ends (lit "po_price") (lit "125.50") H)).
Defined.

(** C2 as stated fails: a value inside two pairs of quotes comes out bare,
    not inside one pair. *)
Lemma two_pairs_of_quotes_both_go :
  segment_fields (lit "po_price=" ++ quoted (quoted (lit "125.50")))
  = Some (lit "po_price", lit "125.50")
  /\ segment_fields (lit "po_price=" ++ quoted (quoted (lit "125.50")))
     <> Some (lit "po_price", quoted (lit "125.50")).
Proof. split; vm_compute; [reflexivity | discriminate]. Qed.

(** ** The order of the segments *)

(** C4: when an input leads to parameters, so does every input made of the
    same comma-separated segments in another order, and the parameters are
    the same; the segments are those of the input as given or as stripped. *)
Theorem segment_order_is_irrelevant (input : str) (ps' : list str) :
  Permutation ps' (split "," input)
  \/ Permutation ps' (split "," (strip input)) ->
  (forall r, StockCheckTool.build input = Params r ->
             StockCheckTool.build (join "," ps') = Params r)
  /\ (forall r, PriceCheckTool.build input = Params r ->
                PriceCheckTool.build (join "," ps') = Params r).
Proof.
  intros [Hp|Hp]; split; intros r Hb.
  - apply (StockBuild.stock_build_join_permutation (split "," input));
      [apply split_Forall | apply split_not_nil | exact Hp |].
    now rewrite join_split.
  - apply (PriceBuild.price_build_join_permutation (split "," input));
      [apply split_Forall | apply split_not_nil | exact Hp |].
    now rewrite join_split.
  - apply (StockBuild.stock_build_join_permutation (split "," (strip input)));
      [apply split_Forall | apply split_not_nil | exact Hp |].
    now rewrite join_split, StockBuild.stock_build_strip.
  - apply (PriceBuild.price_build_join_permutation (split "," (strip input)));
      [apply split_Forall | apply split_not_nil | exact Hp |].
    now rewrite join_split, PriceBuild.price_build_strip.
Qed.

(** The worked inventory input with its three segments in reverse order. *)
Lemma reversed_segments_parse_alike :
  StockCheckTool.build
    (join "," (rev (split "," (inventory_input "3010228002" "32100.000" "02/13/2025"))))
  = Params (StockCheckTool.mkparams (lit "3010228002") 32100 (lit "2025-02-13")).
Proof.
  apply (proj1 (segment_order_is_irrelevant
                  (inventory_input "3010228002" "32100.000" "02/13/2025")
                  (rev (split "," (inventory_input "3010228002" "32100.000" "02/13/2025")))
                  (or_introl (Permutation_sym (Permutation_rev _))))).
  vm_compute. reflexivity.
Defined.

(** ** The price *)

(** C8: the price is refused only when [float] cannot read it, with the
    valid-number message; any text [float] reads goes through, zero and
    negative numbers included, since no sign test follows.  This holds of
    the validation step and of [build] on a whole price input. *)
Theorem price_needs_only_a_number :
  (forall ph v,
      is_blank (PriceCheckTool.buyer_part_number ph) = false ->
      PriceCheckTool.po_price_str ph = Some v ->
      PriceCheckTool.validate ph
      = match float (Some v) with
        | Val f =>
            Params (PriceCheckTool.mkparams
                      (strip_opt (PriceCheckTool.buyer_part_number ph)) f)
        | Exc _ => ErrorData PriceCheckTool.price_error
        end)
  /\ (forall part price,
        no_sep "," part -> no_sep "," price ->
        is_blank (Some (strip_chars dq part)) = false ->
        PriceCheckTool.build (price_input_of part price)
        = match float (Some (strip_chars dq price)) with
          | Val f =>
              Params (PriceCheckTool.mkparams (strip (strip_chars dq part)) f)
          | Exc _ => ErrorData PriceCheckTool.price_error
          end)
  /\ PriceCheckTool.build (price_input "3010228002" "0")
     = Params (PriceCheckTool.mkparams (lit "3010228002") (S754_zero false))
  /\ PriceCheckTool.build (price_input "3010228002" "-5.0")
     = Params (PriceCheckTool.mkparams (lit "3010228002")
                 (S754_finite true 5629499534213120 (-50)))
  /\ PriceCheckTool.build (price_input "3010228002" "abc")
     = ErrorData (lit "'po_price' must be a valid number (e.g., '125.50').").
Proof.
  assert (V : forall ph v,
      is_blank (PriceCheckTool.buyer_part_number ph) = false ->
      PriceCheckTool.po_price_str ph = Some v ->
      PriceCheckTool.validate ph
      = match float (Some v) with
        | Val f =>
            Params (PriceCheckTool.mkparams
                      (strip_opt (PriceCheckTool.buyer_part_number ph)) f)
        | Exc _ => ErrorData PriceCheckTool.price_error
        end).
  { intros ph v Hb Hv. unfold PriceCheckTool.validate. rewrite Hb, Hv.
    destruct (float (Some v)) as [f|e] eqn:E; [reflexivity|].
    now rewrite (float_str_exc v e E). }
  split; [exact V|]. split.
  - intros part price Hpart Hprice Hb.
    unfold price_input_of. rewrite comma_space_2.
    rewrite (PriceBuild.price_build_join_ok
               [assign "buyer_part_number" part;
                " "%char :: assign "po_price" price]
               (PriceCheckTool.mkph (Some (strip_chars dq part))
                  (Some (strip_chars dq price)))).
    + now rewrite (V (PriceCheckTool.mkph (Some (strip_chars dq part))
                        (Some (strip_chars dq price)))
                     (strip_chars dq price) Hb eq_refl).
    + repeat constructor; unfold assign.
      * apply no_sep_app; [apply no_sep_check; reflexivity|].
        apply no_sep_cons; [discriminate|].
        now apply no_sep_quoted; [exact comma_not_dq|].
      * apply no_sep_cons; [discriminate|].
        apply no_sep_app; [apply no_sep_check; reflexivity|].
        apply no_sep_cons; [discriminate|].
        now apply no_sep_quoted; [exact comma_not_dq|].
    + reflexivity.
    + apply PriceBuild.price_parse_segments_price_input.
  - repeat split; vm_compute; reflexivity.
Qed.

(** A negative price in a whole input. *)
Lemma negative_price_goes_through :
  PriceCheckTool.build (price_input_of (lit "3010228002") (lit "-5.0"))
  = match float (Some (strip_chars dq (lit "-5.0"))) with
    | Val f =>
        Params (PriceCheckTool.mkparams
                  (strip (strip_chars dq (lit "3010228002"))) f)
    | Exc _ => ErrorData PriceCheckTool.price_error
    end.
Proof.
  apply (proj1 (proj2 price_needs_only_a_number)).
  - apply no_sep_check. reflexivity.
  - apply no_sep_check. reflexivity.
  - reflexivity.
Defined.

(** ** Dates *)




(** ** Worked inputs *)

(** C7: the input
    buyer_part_number="3010228002", order_quantity="32100.000",
    requested_fulfillment_date="02/13/2025" parses against the inventory
    schema into the part number 3010228002 as a string, the integer quantity
    32100 and the date 2025-02-13. *)
Theorem inventory_example_parses :
  StockCheckTool.build (inventory_input "3010228002" "32100.000" "02/13/2025")
  = Params (StockCheckTool.mkparams (lit "3010228002") 32100 (lit "2025-02-13")).
Proof. vm_compute. reflexivity. Qed.

(** C6: a quantity of 0 or -5 is refused with the positive-integer message, a
    quantity of abc with the valid-integer message, and the two messages
    differ. *)
Theorem quantity_messages :
  StockCheckTool.build (inventory_input "3010228002" "0" "02/13/2025")
  = ErrorData (lit "'order_quantity' must be a positive integer.")
  /\ StockCheckTool.build (inventory_input "3010228002" "-5" "02/13/2025")
     = ErrorData (lit "'order_quantity' must be a positive integer.")
  /\ StockCheckTool.build (inventory_input "3010228002" "abc" "02/13/2025")
     = ErrorData
         (lit "'order_quantity' must be a valid integer (e.g., '32100', '32100.000').")
  /\ StockCheckTool.positive_error <> StockCheckTool.integer_error
  /\ float (Some (lit "abc")) = Exc ValueError
  /\ (x <- float (Some (lit "0")) ;; int x) = Val 0
  /\ (x <- float (Some (lit "-5")) ;; int x) = Val (-5).
Proof. repeat split; try (vm_compute; reflexivity). vm_compute. discriminate. Qed.

(** C5: the formats are tried in the order two-digit year, four-digit year,
    and the first that parses wins; 02/13/25 and 02/13/2025 both give
    2025-02-13, and 13/40/2025 gives the date-format message. *)
Theorem date_formats_in_order :
  StockCheckTool.tried_formats = [lit "%m/%d/%y"; lit "%m/%d/%Y"]
  /\ (forall x : option str,
        StockCheckTool.try_formats StockCheckTool.tried_formats x
        = match strptime x (lit "%m/%d/%y") with
          | Val d => Val (Some d)
          | Exc ValueError =>
              match strptime x (lit "%m/%d/%Y") with
              | Val d => Val (Some d)
              | Exc ValueError => Val None
              | Exc e => Exc e
              end
          | Exc e => Exc e
          end)
  /\ strptime (Some (lit "02/13/25")) (lit "%m/%d/%y") = Val (mkdate 2025 2 13)
  /\ strptime (Some (lit "02/13/2025")) (lit "%m/%d/%y") = Exc ValueError
  /\ strptime (Some (lit "02/13/2025")) (lit "%m/%d/%Y") = Val (mkdate 2025 2 13)
  /\ StockCheckTool.build (inventory_input "3010228002" "32100.000" "02/13/25")
     = Params (StockCheckTool.mkparams (lit "3010228002") 32100 (lit "2025-02-13"))
  /\ StockCheckTool.build (inventory_input "3010228002" "32100.000" "02/13/2025")
     = Params (StockCheckTool.mkparams (lit "3010228002") 32100 (lit "2025-02-13"))
  /\ StockCheckTool.build (inventory_input "3010228002" "32100.000" "13/40/2025")
     = ErrorData
         (lit "'requested_fulfillment_date' must be in 'MM/DD/YY' or 'MM/DD/YYYY' format (e.g., '5/1/25' or '5/1/2025').").
Proof.
  split; [reflexivity|].
  split.
  - intro x. unfold StockCheckTool.tried_formats. cbn [StockCheckTool.try_formats].
    destruct (strptime x (lit "%m/%d/%y")) as [d|[]]; reflexivity.
  - repeat split; vm_compute; reflexivity.
Qed.

(** C10: nan, inf, -inf and Infinity pass the po_price validation and reach
    the parameters as float values. *)
Theorem price_accepts_non_finite :
  PriceCheckTool.build (price_input "3010228002" "nan")
  = Params (PriceCheckTool.mkparams (lit "3010228002") S754_nan)
  /\ PriceCheckTool.build (price_input "3010228002" "inf")
     = Params (PriceCheckTool.mkparams (lit "3010228002") (S754_infinity false))
  /\ PriceCheckTool.build (price_input "3010228002" "-inf")
     = Params (PriceCheckTool.mkparams (lit "3010228002") (S754_infinity true))
  /\ PriceCheckTool.build (price_input "3010228002" "Infinity")
     = Params (PriceCheckTool.mkparams (lit "3010228002") (S754_infinity false)).
Proof. repeat split; vm_compute; reflexivity. Qed.

(** C1: the parse step does raise.  With a key given twice and another field
    left unassigned, [float(None)] or [strptime(None, fmt)] raises a
    TypeError that no handler catches, in both tools; an infinite quantity
    raises an OverflowError in [int]. *)
Theorem unassigned_field_raises :
  StockCheckTool.build
    (comma_space [assign "buyer_part_number" (lit "a");
                  assign "buyer_part_number" (lit "b");
                  assign "requested_fulfillment_date" (lit "02/13/25")])
  = Raised TypeError
  /\ StockCheckTool.build
       (comma_space [assign "buyer_part_number" (lit "a");
                     assign "order_quantity" (lit "5");
                     assign "order_quantity" (lit "6")])
     = Raised TypeError
  /\ PriceCheckTool.build
       (comma_space [assign "buyer_part_number" (lit "a");
                     assign "buyer_part_number" (lit "b")])
     = Raised TypeError
  /\ StockCheckTool.build (inventory_input "3010228002" "inf" "02/13/2025")
     = Raised OverflowError.
Proof. repeat split; vm_compute; reflexivity. Qed.

(** * Further properties of the parse step *)

Lemma is_blank_false a : is_blank (Some a) = false -> strip a <> [].
Proof.
  unfold is_blank. destruct a as [|c a]; [discriminate|].
  destruct (strip (c :: a)); [discriminate | discriminate].
Qed.

(** ** Inputs in the documented format *)

Lemma stock_parse_segments_inventory_input part quantity date :
  StockCheckTool.parse_segments
    [assign "buyer_part_number" part;
     " "%char :: assign "order_quantity" quantity;
     " "%char :: assign "requested_fulfillment_date" date]
    (StockCheckTool.mkph None None None)
  = inr (StockCheckTool.mkph (Some (strip_chars dq part))
           (Some (strip_chars dq quantity)) (Some (strip_chars dq date))).
Proof.
  unfold assign. cbn [StockCheckTool.parse_segments].
  rewrite segment_fields_assign by (apply no_sep_check; reflexivity).
  change (" "%char :: lit "order_quantity" ++ "="%char :: quoted quantity)
    with ((" "%char :: lit "order_quantity") ++ "="%char :: quoted quantity).
  rewrite segment_fields_assign by (apply no_sep_check; reflexivity).
  change (" "%char :: lit "requested_fulfillment_date" ++ "="%char :: quoted date)
    with ((" "%char :: lit "requested_fulfillment_date")
          ++ "="%char :: quoted date).
  rewrite segment_fields_assign by (apply no_sep_check; reflexivity).
  rewrite !strip_quoted, !strip_chars_quoted.
  reflexivity.
Qed.

Lemma no_sep_assign key value :
  no_sep "," (lit key) -> no_sep "," value -> no_sep "," (assign key value).
Proof.
  intros Hk Hv. unfold assign. apply no_sep_app; [exact Hk|].
  apply no_sep_cons; [discriminate|].
  now apply no_sep_quoted; [exact comma_not_dq|].
Qed.

Lemma no_sep_space_assign key value :
  no_sep "," (lit key) -> no_sep "," value ->
  no_sep "," (" "%char :: assign key value).
Proof.
  intros Hk Hv. apply no_sep_cons; [discriminate|]. now apply no_sep_assign.
Qed.

Lemma stock_build_documented part quantity date :
  no_sep "," part -> no_sep "," quantity -> no_sep "," date ->
  StockCheckTool.build (inventory_input_of part quantity date)
  = StockCheckTool.validate
      (StockCheckTool.mkph (Some (strip_chars dq part))
         (Some (strip_chars dq quantity)) (Some (strip_chars dq date))).
Proof.
  intros Hp Hs Hd.
  unfold inventory_input_of. rewrite comma_space_3.
  apply StockBuild.stock_build_join_ok.
  - repeat constructor;
      [apply no_sep_assign | apply no_sep_space_assign
       | apply no_sep_space_assign];
      solve [assumption | apply no_sep_check; reflexivity].
  - reflexivity.
  - apply stock_parse_segments_inventory_input.
Qed.

Lemma price_build_documented part price :
  no_sep "," part -> no_sep "," price ->
  PriceCheckTool.build (price_input_of part price)
  = PriceCheckTool.validate
      (PriceCheckTool.mkph (Some (strip_chars dq part))
         (Some (strip_chars dq price))).
Proof.
  intros Hp Hs.
  unfold price_input_of. rewrite comma_space_2.
  apply PriceBuild.price_build_join_ok.
  - repeat constructor;
      [apply no_sep_assign | apply no_sep_space_assign];
      solve [assumption | apply no_sep_check; reflexivity].
  - reflexivity.
  - apply PriceBuild.price_parse_segments_price_input.
Qed.

(** ** What the built-ins raise *)

Lemma strptime_str_exc s fmt e : strptime (Some s) fmt = Exc e -> e = ValueError.
Proof.
  unfold strptime.
  destruct (re_match _ _ _) as [[found [|? ?]]|]; try congruence.
  unfold datetime_date. destruct (_ && _); congruence.
Qed.

Lemma try_formats_str fmts s :
  exists r, StockCheckTool.try_formats fmts (Some s) = Val r.
Proof.
  induction fmts as [|fmt fmts IH]; cbn [StockCheckTool.try_formats]; [eauto|].
  destruct (strptime (Some s) fmt) as [d|e] eqn:E; [eexists; reflexivity|].
  rewrite (strptime_str_exc _ _ _ E). exact IH.
Qed.

Lemma int_exc x e :
  int x = Exc e ->
  (e = ValueError /\ x = S754_nan)
  \/ (e = OverflowError /\ exists s, x = S754_infinity s).
Proof.
  destruct x; simpl; intro H; try discriminate; injection H as <-; eauto.
Qed.

(** ** The outcomes of the validation *)

Lemma stock_validate_params_inv ph r :
  StockCheckTool.validate ph = Params r ->
  exists a n dt,
    StockCheckTool.buyer_part_number ph = Some a
    /\ is_blank (Some a) = false
    /\ (x <- float (StockCheckTool.order_quantity ph) ;; int x) = Val n
    /\ 0 < n
    /\ StockCheckTool.try_formats StockCheckTool.tried_formats
         (StockCheckTool.requested_fulfillment_date ph) = Val (Some dt)
    /\ r = StockCheckTool.mkparams (strip a) n (strftime dt (lit "%Y-%m-%d")).
Proof.
  unfold StockCheckTool.validate.
  destruct (StockCheckTool.buyer_part_number ph) as [a|];
    [|cbn [is_blank]; discriminate].
  destruct (is_blank (Some a)) eqn:Eb; [discriminate|].
  destruct (bind _ _) as [n|[]]; try discriminate.
  destruct (Z.leb_spec n 0) as [Hn|Hn]; [discriminate|].
  destruct (StockCheckTool.try_formats _ _) as [[dt|]|e]; try discriminate.
  intro H. injection H as <-. exists a, n, dt. cbn [strip_opt]. auto 10.
Qed.

Lemma stock_validate_raised_inv ph e :
  StockCheckTool.validate ph = Raised e ->
  is_blank (StockCheckTool.buyer_part_number ph) = false
  /\ (((x <- float (StockCheckTool.order_quantity ph) ;; int x) = Exc e
       /\ e <> ValueError)
      \/ StockCheckTool.try_formats StockCheckTool.tried_formats
           (StockCheckTool.requested_fulfillment_date ph) = Exc e).
Proof.
  unfold StockCheckTool.validate.
  destruct (is_blank _); [discriminate|]. intro H. split; [reflexivity|].
  revert H. destruct (bind _ _) as [n|e'].
  - destruct (n <=? 0); [discriminate|].
    destruct (StockCheckTool.try_formats _ _) as [[dt|]|e'']; try discriminate.
    intro H. injection H as <-. now right.
  - destruct e'; try discriminate; intro H; injection H as <-;
      refine (or_introl (conj eq_refl _)); discriminate.
Qed.

Lemma price_validate_params_inv ph r :
  PriceCheckTool.validate ph = Params r ->
  exists a v f,
    PriceCheckTool.buyer_part_number ph = Some a
    /\ is_blank (Some a) = false
    /\ PriceCheckTool.po_price_str ph = Some v
    /\ float (Some v) = Val f
    /\ r = PriceCheckTool.mkparams (strip a) f.
Proof.
  unfold PriceCheckTool.validate.
  destruct (PriceCheckTool.buyer_part_number ph) as [a|];
    [|cbn [is_blank]; discriminate].
  destruct (is_blank (Some a)) eqn:Eb; [discriminate|].
  destruct (PriceCheckTool.po_price_str ph) as [v|]; [|cbn [float]; discriminate].
  destruct (float (Some v)) as [f|[]] eqn:Ef; try discriminate.
  intro H. injection H as <-. exists a, v, f. cbn [strip_opt]. auto 10.
Qed.

Lemma price_validate_raised_inv ph e :
  PriceCheckTool.validate ph = Raised e ->
  is_blank (PriceCheckTool.buyer_part_number ph) = false
  /\ PriceCheckTool.po_price_str ph = None /\ e = TypeError.
Proof.
  unfold PriceCheckTool.validate.
  destruct (is_blank _); [discriminate|]. intro H. split; [reflexivity|].
  revert H. destruct (PriceCheckTool.po_price_str ph) as [v|].
  - destruct (float (Some v)) as [f|e'] eqn:Ef; [discriminate|].
    rewrite (float_str_exc _ _ Ef). discriminate.
  - cbn [float]. intro H. injection H as <-. auto.
Qed.

(** What [build] does after the count test, in both tools. *)
Lemma stock_build_inv input :
  (length (split "," (strip input)) <> 3%nat
   /\ StockCheckTool.build input = ErrorData StockCheckTool.count_error)
  \/ (length (split "," (strip input)) = 3%nat /\
      ((exists msg,
           StockCheckTool.parse_segments (split "," (strip input))
             (StockCheckTool.mkph None None None) = inl msg
           /\ StockCheckTool.build input = ErrorData msg)
       \/ (exists ph,
             StockCheckTool.parse_segments (split "," (strip input))
               (StockCheckTool.mkph None None None) = inr ph
             /\ StockCheckTool.build input = StockCheckTool.validate ph))).
Proof.
  unfold StockCheckTool.build.
  destruct (Nat.eqb_spec (length (split "," (strip input))) 3) as [E|E];
    cbn [negb]; [right; split; [exact E|] | left; auto].
  destruct (StockCheckTool.parse_segments _ _) as [msg|ph]; eauto.
Qed.

Lemma price_build_inv input :
  (length (split "," (strip input)) <> 2%nat
   /\ PriceCheckTool.build input = ErrorData PriceCheckTool.count_error)
  \/ (length (split "," (strip input)) = 2%nat /\
      ((exists msg,
           PriceCheckTool.parse_segments (split "," (strip input))
             (PriceCheckTool.mkph None None) = inl msg
           /\ PriceCheckTool.build input = ErrorData msg)
       \/ (exists ph,
             PriceCheckTool.parse_segments (split "," (strip input))
               (PriceCheckTool.mkph None None) = inr ph
             /\ PriceCheckTool.build input = PriceCheckTool.validate ph))).
Proof.
  unfold PriceCheckTool.build.
  destruct (Nat.eqb_spec (length (split "," (strip input))) 2) as [E|E];
    cbn [negb]; [right; split; [exact E|] | left; auto].
  destruct (PriceCheckTool.parse_segments _ _) as [msg|ph]; eauto.
Qed.

Lemma datetime_date_valid y m d dt :
  datetime_date y m d = Val dt ->
  dt = mkdate y m d /\ 1 <= y <= 9999 /\ 1 <= m <= 12
  /\ 1 <= d <= days_in_month y m.
Proof.
  unfold datetime_date.
  destruct (_ && _) eqn:E; [|discriminate].
  intro H. injection H as <-.
  repeat (apply andb_prop in E; destruct E as [E ?]).
  repeat split; lia.
Qed.

(** ** What the parameters are like *)

(** X1: the parameters the parse step hands to the request are well formed:
    the part number is not empty and has no white space around it, the
    quantity is at least 1, and the date is a day of the calendar, years 1
    to 9999, written as the year, a dash, the month with two digits, a dash
    and the day with two digits; the year is a plain number, so the text is
    YYYY-MM-DD from the year 1000 on and shorter before; for the price tool
    the part number is not empty and has no white space around it. *)
Theorem params_are_well_formed (input : str) :
  (forall r, StockCheckTool.build input = Params r ->
     StockCheckTool.p_buyer_part_number r <> []
     /\ strip (StockCheckTool.p_buyer_part_number r)
        = StockCheckTool.p_buyer_part_number r
     /\ 1 <= StockCheckTool.p_order_quantity r
     /\ exists y m d,
          1 <= y <= 9999 /\ 1 <= m <= 12 /\ 1 <= d <= days_in_month y m
          /\ StockCheckTool.p_requested_fulfillment_date r = written_date y m d
          /\ (1000 <= y ->
              StockCheckTool.p_requested_fulfillment_date r = iso_text y m d)
          /\ (y < 1000 ->
              (length (StockCheckTool.p_requested_fulfillment_date r) < 10)%nat))
  /\ (forall r, PriceCheckTool.build input = Params r ->
        PriceCheckTool.p_buyer_part_number r <> []
        /\ strip (PriceCheckTool.p_buyer_part_number r)
           = PriceCheckTool.p_buyer_part_number r).
Proof.
  split; intros r H.
  - destruct (stock_build_inv input) as [[_ E]|[_ [(msg & _ & E)|(ph & _ & E)]]];
      rewrite E in H; try discriminate.
    apply stock_validate_params_inv in H.
    destruct H as (a & n & dt & _ & Hb & _ & Hn & Hd & ->).
    cbn [StockCheckTool.p_buyer_part_number StockCheckTool.p_order_quantity
           StockCheckTool.p_requested_fulfillment_date].
    split; [now apply is_blank_false|]. split; [apply strip_strip|].
    split; [lia|].
    apply try_formats_inv, datetime_date_valid in Hd.
    destruct Hd as (_ & Hy & Hm & Hday).
    exists (year dt), (month dt), (day dt).
    rewrite strftime_written.
    split; [lia|]. split; [lia|]. split; [lia|]. split; [reflexivity|]. split.
    + intro L. apply written_date_iso. lia.
    + intro L. rewrite written_date_length.
      destruct (year_text_cases (year dt) Hy) as [[_ G]|[G _]]; lia.
  - destruct (price_build_inv input) as [[_ E]|[_ [(msg & _ & E)|(ph & _ & E)]]];
      rewrite E in H; try discriminate.
    apply price_validate_params_inv in H.
    destruct H as (a & v & f & _ & Hb & _ & _ & ->).
    cbn [PriceCheckTool.p_buyer_part_number].
    split; [now apply is_blank_false | apply strip_strip].
Qed.

Lemma params_are_well_formed_witness :
  StockCheckTool.p_buyer_part_number
    (StockCheckTool.mkparams (lit "3010228002") 32100 (lit "2025-02-13")) <> []
  /\ 1 <= StockCheckTool.p_order_quantity
            (StockCheckTool.mkparams (lit "3010228002") 32100 (lit "2025-02-13")).
Proof.
  destruct (proj1 (params_are_well_formed
                     (inventory_input "3010228002" "32100.000" "02/13/2025"))
              (StockCheckTool.mkparams (lit "3010228002") 32100 (lit "2025-02-13")))
    as (H1 & _ & H3 & _).
  - vm_compute. reflexivity.
  - split; assumption.
Defined.

(** ** When the parse step raises *)

(** X2: the parse step of the inventory tool raises only a TypeError,
    with the quantity or the date never assigned, or an OverflowError, with
    a quantity that [float] reads as an infinity; the price tool raises only
    a TypeError, with the price never assigned.  In each case every segment
    was accepted by the loop. *)
Theorem raises_only_when_unassigned_or_infinite (input : str) (e : exn) :
  (StockCheckTool.build input = Raised e ->
   exists ph,
     StockCheckTool.parse_segments (split "," (strip input))
       (StockCheckTool.mkph None None None) = inr ph
     /\ ((e = TypeError
          /\ (StockCheckTool.order_quantity ph = None
              \/ StockCheckTool.requested_fulfillment_date ph = None))
         \/ (e = OverflowError
             /\ exists q sgn,
                  StockCheckTool.order_quantity ph = Some q
                  /\ float (Some q) = Val (S754_infinity sgn))))
  /\ (PriceCheckTool.build input = Raised e ->
      e = TypeError
      /\ exists ph,
           PriceCheckTool.parse_segments (split "," (strip input))
             (PriceCheckTool.mkph None None) = inr ph
           /\ PriceCheckTool.po_price_str ph = None).
Proof.
  split; intro H.
  - destruct (stock_build_inv input) as [[_ E]|[_ [(msg & _ & E)|(ph & Hp & E)]]];
      rewrite E in H; try discriminate.
    exists ph. split; [exact Hp|].
    apply stock_validate_raised_inv in H. destruct H as (_ & [[H Hne]|H]).
    + destruct (StockCheckTool.order_quantity ph) as [q|] eqn:Eq.
      * destruct (float (Some q)) as [x|e'] eqn:Ef; cbn [bind] in H.
        -- destruct (int_exc _ _ H) as [[-> _]|[-> [sgn ->]]]; [congruence|].
           right. split; [reflexivity|]. eauto.
        -- injection H as <-. rewrite (float_str_exc _ _ Ef) in Hne. congruence.
      * cbn [float bind] in H. injection H as <-. left. auto.
    + destruct (StockCheckTool.requested_fulfillment_date ph) as [s|] eqn:Ed.
      * destruct (try_formats_str StockCheckTool.tried_formats s) as [r Hr].
        congruence.
      * unfold StockCheckTool.tried_formats in H.
        rewrite StockFacts.stock_try_formats_None in H.
        injection H as <-. left. auto.
  - destruct (price_build_inv input) as [[_ E]|[_ [(msg & _ & E)|(ph & Hp & E)]]];
      rewrite E in H; try discriminate.
    apply price_validate_raised_inv in H. destruct H as (_ & Hn & ->).
    split; [reflexivity|]. eauto.
Qed.

Lemma raises_witness :
  exists ph,
    PriceCheckTool.parse_segments
      (split "," (strip (comma_space [assign "buyer_part_number" (lit "a");
                                      assign "buyer_part_number" (lit "b")])))
      (PriceCheckTool.mkph None None) = inr ph
    /\ PriceCheckTool.po_price_str ph = None.
Proof.
  apply (proj2 (raises_only_when_unassigned_or_infinite
                  (comma_space [assign "buyer_part_number" (lit "a");
                                assign "buyer_part_number" (lit "b")])
                  TypeError)).
  vm_compute. reflexivity.
Defined.

(** ** Keys *)

Lemma length_3_inv {A} (l : list A) :
  length l = 3%nat -> exists a b c, l = [a; b; c].
Proof. destruct l as [|a [|b [|c [|? ?]]]]; try discriminate. eauto. Qed.

Lemma length_2_inv {A} (l : list A) :
  length l = 2%nat -> exists a b, l = [a; b].
Proof. destruct l as [|a [|b [|? ?]]]; try discriminate. eauto. Qed.

Lemma perm3_cases {A} (a b c : A) :
  Permutation [a; b; c] [a; b; c] /\ Permutation [a; c; b] [a; b; c]
  /\ Permutation [b; a; c] [a; b; c] /\ Permutation [b; c; a] [a; b; c]
  /\ Permutation [c; a; b] [a; b; c] /\ Permutation [c; b; a] [a; b; c].
Proof.
  repeat split.
  - apply Permutation_refl.
  - apply perm_skip, perm_swap.
  - apply perm_swap.
  - apply Permutation_sym. apply (Permutation_cons_append [b; c] a).
  - apply (Permutation_cons_append [a; b] c).
  - apply Permutation_sym, Permutation_rev.
Qed.

Ltac key_test k H :=
  match goal with
  | |- context [str_eqb k ?x] =>
      let E := fresh "E" in
      destruct (str_eqb k x) eqn:E;
      [apply str_eqb_eq in E; subst k | clear E]
  end.

(** X3: parameters come out only when the three (resp. two) segments carry
    the keys of the tool, each of them once, in any order. *)
Theorem params_need_each_key_once (input : str) :
  (forall r, StockCheckTool.build input = Params r ->
     exists a b c ka kb kc va vb vc,
       split "," (strip input) = [a; b; c]
       /\ segment_fields a = Some (ka, va)
       /\ segment_fields b = Some (kb, vb)
       /\ segment_fields c = Some (kc, vc)
       /\ Permutation [ka; kb; kc]
            [lit "buyer_part_number"; lit "order_quantity";
             lit "requested_fulfillment_date"])
  /\ (forall r, PriceCheckTool.build input = Params r ->
        exists a b ka kb va vb,
          split "," (strip input) = [a; b]
          /\ segment_fields a = Some (ka, va)
          /\ segment_fields b = Some (kb, vb)
          /\ Permutation [ka; kb] [lit "buyer_part_number"; lit "po_price"]).
Proof.
  split; intros r H.
  - destruct (stock_build_inv input) as [[_ E]|[Hl [(msg & _ & E)|(ph & Hp & E)]]];
      rewrite E in H; try discriminate.
    apply StockFacts.stock_validate_params_assigned in H.
    destruct H as (x & y & z & ->).
    destruct (length_3_inv _ Hl) as (a & b & c & Hs). rewrite Hs in Hp.
    exists a, b, c. revert Hp. cbn [StockCheckTool.parse_segments].
    destruct (segment_fields a) as [[ka va]|]; [|discriminate].
    destruct (segment_fields b) as [[kb vb]|];
      [|repeat key_test ka H; discriminate].
    destruct (segment_fields c) as [[kc vc]|];
      [|repeat key_test ka H; repeat key_test kb H; discriminate].
    intro Hp. exists ka, kb, kc, va, vb, vc.
    split; [exact Hs|]. repeat (split; [reflexivity|]).
    revert Hp.
    repeat key_test ka H; try discriminate;
      repeat key_test kb H; try discriminate;
      repeat key_test kc H; try discriminate;
      intros _;
      destruct (perm3_cases (lit "buyer_part_number") (lit "order_quantity")
                  (lit "requested_fulfillment_date"))
        as (? & ? & ? & ? & ? & ?); assumption.
  - destruct (price_build_inv input) as [[_ E]|[Hl [(msg & _ & E)|(ph & Hp & E)]]];
      rewrite E in H; try discriminate.
    apply PriceFacts.price_validate_params_assigned in H.
    destruct H as (x & y & ->).
    destruct (length_2_inv _ Hl) as (a & b & Hs). rewrite Hs in Hp.
    exists a, b. revert Hp. cbn [PriceCheckTool.parse_segments].
    destruct (segment_fields a) as [[ka va]|]; [|discriminate].
    destruct (segment_fields b) as [[kb vb]|];
      [|repeat key_test ka H; discriminate].
    intro Hp. exists ka, kb, va, vb.
    split; [exact Hs|]. repeat (split; [reflexivity|]).
    revert Hp.
    repeat key_test ka H; try discriminate;
      repeat key_test kb H; try discriminate;
      intros _; [apply Permutation_refl | apply perm_swap].
Qed.

Lemma params_need_each_key_once_witness :
  exists a b c ka kb kc va vb vc,
    split "," (strip (inventory_input "3010228002" "32100.000" "02/13/2025"))
    = [a; b; c]
    /\ segment_fields a = Some (ka, va)
    /\ segment_fields b = Some (kb, vb)
    /\ segment_fields c = Some (kc, vc)
    /\ Permutation [ka; kb; kc]
         [lit "buyer_part_number"; lit "order_quantity";
          lit "requested_fulfillment_date"].
Proof.
  apply (proj1 (params_need_each_key_once
                  (inventory_input "3010228002" "32100.000" "02/13/2025"))
           (StockCheckTool.mkparams (lit "3010228002") 32100 (lit "2025-02-13"))).
  vm_compute. reflexivity.
Defined.

(** ** The first segment that is not accepted *)

Lemma stock_parse_segments_recognized good :
  Forall (recognized stock_key) good ->
  forall rest ph, exists ph',
    StockCheckTool.parse_segments (good ++ rest) ph
    = StockCheckTool.parse_segments rest ph'.
Proof.
  induction 1 as [|part good (k & v & Hsf & Hk) _ IH]; intros rest ph.
  - exists ph. reflexivity.
  - cbn [app StockCheckTool.parse_segments]. rewrite Hsf.
    unfold stock_key in Hk.
    destruct (str_eqb k (lit "buyer_part_number")); [apply IH|].
    destruct (str_eqb k (lit "order_quantity")); [apply IH|].
    destruct (str_eqb k (lit "requested_fulfillment_date")); [apply IH|].
    discriminate Hk.
Qed.

Lemma price_parse_segments_recognized good :
  Forall (recognized price_key) good ->
  forall rest ph, exists ph',
    PriceCheckTool.parse_segments (good ++ rest) ph
    = PriceCheckTool.parse_segments rest ph'.
Proof.
  induction 1 as [|part good (k & v & Hsf & Hk) _ IH]; intros rest ph.
  - exists ph. reflexivity.
  - cbn [app PriceCheckTool.parse_segments]. rewrite Hsf.
    unfold price_key in Hk.
    destruct (str_eqb k (lit "buyer_part_number")); [apply IH|].
    destruct (str_eqb k (lit "po_price")); [apply IH|].
    discriminate Hk.
Qed.

Lemma stock_parse_segments_bad bad rest ph :
  (segment_fields bad = None ->
   StockCheckTool.parse_segments (bad :: rest) ph = inl (could_not_parse bad))
  /\ (forall key v, segment_fields bad = Some (key, v) ->
        stock_key key = false ->
        StockCheckTool.parse_segments (bad :: rest) ph
        = inl (unrecognized_key key bad)).
Proof.
  cbn [StockCheckTool.parse_segments]. split.
  - now intros ->.
  - intros key v -> Hk. unfold stock_key in Hk.
    destruct (str_eqb key (lit "buyer_part_number")); [discriminate|].
    destruct (str_eqb key (lit "order_quantity")); [discriminate|].
    destruct (str_eqb key (lit "requested_fulfillment_date")); [discriminate|].
    reflexivity.
Qed.

Lemma price_parse_segments_bad bad rest ph :
  (segment_fields bad = None ->
   PriceCheckTool.parse_segments (bad :: rest) ph = inl (could_not_parse bad))
  /\ (forall key v, segment_fields bad = Some (key, v) ->
        price_key key = false ->
        PriceCheckTool.parse_segments (bad :: rest) ph
        = inl (unrecognized_key key bad)).
Proof.
  cbn [PriceCheckTool.parse_segments]. split.
  - now intros ->.
  - intros key v -> Hk. unfold price_key in Hk.
    destruct (str_eqb key (lit "buyer_part_number")); [discriminate|].
    destruct (str_eqb key (lit "po_price")); [discriminate|].
    reflexivity.
Qed.

(** X4: segments are judged from left to right and before any value is
    looked at.  When the stripped input has the right number of segments and
    the first one that is not accepted has no equals sign, the answer is the
    could-not-parse message with that segment; when its key is not one of
    the tool's, the answer is the unrecognized-key message with that key and
    segment; whatever the segments after it and the values before it. *)
Theorem first_bad_segment_is_reported
  (input : str) (good : list str) (bad : str) (rest : list str) :
  split "," (strip input) = good ++ bad :: rest ->
  (length (good ++ bad :: rest) = 3%nat ->
   Forall (recognized stock_key) good ->
   (segment_fields bad = None ->
    StockCheckTool.build input = ErrorData (could_not_parse bad))
   /\ (forall key v, segment_fields bad = Some (key, v) ->
         stock_key key = false ->
         StockCheckTool.build input = ErrorData (unrecognized_key key bad)))
  /\ (length (good ++ bad :: rest) = 2%nat ->
      Forall (recognized price_key) good ->
      (segment_fields bad = None ->
       PriceCheckTool.build input = ErrorData (could_not_parse bad))
      /\ (forall key v, segment_fields bad = Some (key, v) ->
            price_key key = false ->
            PriceCheckTool.build input = ErrorData (unrecognized_key key bad))).
Proof.
  intro Hs. split; intros Hl Hg.
  - unfold StockCheckTool.build. rewrite Hs, Hl. cbn [Nat.eqb negb].
    destruct (stock_parse_segments_recognized good Hg (bad :: rest)
                (StockCheckTool.mkph None None None)) as [ph' ->].
    destruct (stock_parse_segments_bad bad rest ph') as [H1 H2].
    split.
    + intro H. now rewrite (H1 H).
    + intros key v H Hk. now rewrite (H2 key v H Hk).
  - unfold PriceCheckTool.build. rewrite Hs, Hl. cbn [Nat.eqb negb].
    destruct (price_parse_segments_recognized good Hg (bad :: rest)
                (PriceCheckTool.mkph None None)) as [ph' ->].
    destruct (price_parse_segments_bad bad rest ph') as [H1 H2].
    split.
    + intro H. now rewrite (H1 H).
    + intros key v H Hk. now rewrite (H2 key v H Hk).
Qed.

(** A known key, then a key that is not the tool's, then a segment without
    an equals sign: the unknown key is the one reported. *)
Lemma first_bad_segment_witness :
  StockCheckTool.build (lit "order_quantity=abc, colour=red, nonsense")
  = ErrorData (unrecognized_key (lit "colour") (lit " colour=red")).
Proof.
  refine (proj2 (proj1 (first_bad_segment_is_reported
                          (lit "order_quantity=abc, colour=red, nonsense")
                          [lit "order_quantity=abc"] (lit " colour=red")
                          [lit " nonsense"] _) _ _)
            (lit "colour") (lit "red") _ _).
  - vm_compute. reflexivity.
  - reflexivity.
  - repeat constructor. exists (lit "order_quantity"), (lit "abc").
    split; vm_compute; reflexivity.
  - vm_compute. reflexivity.
  - vm_compute. reflexivity.
Defined.

(** ** The order of the validation messages *)

(** X5: on an input in the documented format the fields are validated in
    the order part number, quantity, date, and the first failure is the one
    reported: a blank part number whatever the quantity and the date are, a
    quantity that [float] cannot read or that is not positive whatever the
    date is, and the date last. *)
Theorem errors_follow_field_order (part quantity date : str) :
  no_sep "," part -> no_sep "," quantity -> no_sep "," date ->
  (is_blank (Some (strip_chars dq part)) = true ->
   StockCheckTool.build (inventory_input_of part quantity date)
   = ErrorData bpn_error)
  /\ (is_blank (Some (strip_chars dq part)) = false ->
      (float (Some (strip_chars dq quantity)) = Exc ValueError ->
       StockCheckTool.build (inventory_input_of part quantity date)
       = ErrorData StockCheckTool.integer_error)
      /\ (forall n,
            (x <- float (Some (strip_chars dq quantity)) ;; int x) = Val n ->
            (n <= 0 ->
             StockCheckTool.build (inventory_input_of part quantity date)
             = ErrorData StockCheckTool.positive_error)
            /\ (0 < n ->
                normalize_date (strip_chars dq date) = Val None ->
                StockCheckTool.build (inventory_input_of part quantity date)
                = ErrorData StockCheckTool.date_error))).
Proof.
  intros Hp Hq Hd.
  rewrite (stock_build_documented part quantity date Hp Hq Hd).
  unfold StockCheckTool.validate.
  cbn [StockCheckTool.buyer_part_number StockCheckTool.order_quantity
         StockCheckTool.requested_fulfillment_date].
  split; [now intros ->|]. intros ->. split.
  - now intros ->.
  - intros n ->. split.
    + intro Hn. apply Z.leb_le in Hn. now rewrite Hn.
    + intros Hn. apply Z.leb_gt in Hn. rewrite Hn.
      unfold normalize_date.
      destruct (StockCheckTool.try_formats _ _) as [[dt|]|e]; easy.
Qed.

(** No part number, a quantity that is no number and a date that is no date:
    the part number is the one reported. *)
Lemma errors_follow_field_order_witness :
  StockCheckTool.build (inventory_input_of (lit "  ") (lit "abc") (lit "13/40/2025"))
  = ErrorData bpn_error.
Proof.
  apply (errors_follow_field_order (lit "  ") (lit "abc") (lit "13/40/2025"));
    try (apply no_sep_check; reflexivity).
  reflexivity.
Defined.

(** ** White space around the input *)

Lemma dropwhile_all p ws s :
  forallb p ws = true -> dropwhile p (ws ++ s) = dropwhile p s.
Proof.
  induction ws as [|c ws IH]; simpl; [reflexivity|].
  intro H. apply andb_prop in H. destruct H as [-> H]. now apply IH.
Qed.

Lemma forallb_rev {A} (p : A -> bool) l :
  forallb p l = true -> forallb p (rev l) = true.
Proof.
  intro H. apply forallb_forall. intros x Hx.
  rewrite forallb_forall in H. apply H. now apply in_rev.
Qed.

Lemma strip_by_padding p ws1 s ws2 :
  forallb p ws1 = true -> forallb p ws2 = true ->
  strip_by p (ws1 ++ s ++ ws2) = strip_by p s.
Proof.
  intros H1 H2. unfold strip_by, lstrip_by.
  rewrite dropwhile_all by exact H1.
  rewrite <- !lstrip_rstrip_comm. f_equal.
  unfold rstrip_by. rewrite rev_app_distr.
  now rewrite dropwhile_all by now apply forallb_rev.
Qed.

(** X6: white space before and after the input changes nothing, in either
    tool. *)
Theorem outer_white_space_is_ignored (ws1 input ws2 : str) :
  forallb isspace ws1 = true -> forallb isspace ws2 = true ->
  StockCheckTool.build (ws1 ++ input ++ ws2) = StockCheckTool.build input
  /\ PriceCheckTool.build (ws1 ++ input ++ ws2) = PriceCheckTool.build input.
Proof.
  intros H1 H2. unfold StockCheckTool.build, PriceCheckTool.build, strip.
  now rewrite (strip_by_padding isspace ws1 input ws2 H1 H2).
Qed.

Lemma outer_white_space_witness :
  StockCheckTool.build
    (lit "  " ++ inventory_input "3010228002" "32100.000" "02/13/2025" ++ [" "%char])
  = StockCheckTool.build (inventory_input "3010228002" "32100.000" "02/13/2025").
Proof.
  apply (outer_white_space_is_ignored (lit "  ")
           (inventory_input "3010228002" "32100.000" "02/13/2025") [" "%char]);
    reflexivity.
Defined.

(** ** Which date texts are accepted *)

Lemma re_match_month_text m mt R t found :
  1 <= m <= 12 -> mt = zfill2 m \/ mt = short2 m ->
  re_match (Group "m" (TimeRE "m") :: Literal "/" :: R)
    (mt ++ "/"%char :: t) found
  = re_match R t (("m"%char, mt) :: found)
  /\ int_of_group mt = m.
Proof.
  intros H Hmt. revert R t found.
  assert (H' : 1 <= m < 1 + Z.of_nat 12) by lia. clear H. revert m H' mt Hmt.
  apply (Z_range_cases
           (fun m => forall mt, mt = zfill2 m \/ mt = short2 m ->
              forall R t found,
                re_match (Group "m" (TimeRE "m") :: Literal "/" :: R)
                  (mt ++ "/"%char :: t) found
                = re_match R t (("m"%char, mt) :: found)
                /\ int_of_group mt = m) 1 12).
  intros i Hi mt Hmt R t found.
  do 12 (destruct i as [|i];
         [destruct Hmt as [-> | ->]; cbn;
          (split; [destruct (re_match R t _); reflexivity | reflexivity])|]).
  exfalso; lia.
Qed.

Lemma re_match_day_text d dt R t found :
  1 <= d <= 31 -> dt = zfill2 d \/ dt = short2 d ->
  re_match (Group "d" (TimeRE "d") :: Literal "/" :: R)
    (dt ++ "/"%char :: t) found
  = re_match R t (("d"%char, dt) :: found)
  /\ int_of_group dt = d.
Proof.
  intros H Hdt. revert R t found.
  assert (H' : 1 <= d < 1 + Z.of_nat 31) by lia. clear H. revert d H' dt Hdt.
  apply (Z_range_cases
           (fun d => forall dt, dt = zfill2 d \/ dt = short2 d ->
              forall R t found,
                re_match (Group "d" (TimeRE "d") :: Literal "/" :: R)
                  (dt ++ "/"%char :: t) found
                = re_match R t (("d"%char, dt) :: found)
                /\ int_of_group dt = d) 1 31).
  intros i Hi dt Hdt R t found.
  do 31 (destruct i as [|i];
         [destruct Hdt as [-> | ->]; cbn;
          (split; [destruct (re_match R t _); reflexivity | reflexivity])|]).
  exfalso; lia.
Qed.

Lemma re_match_year2 y found :
  re_match [Group "y" (TimeRE "y")] (zfill2 y) found
  = Some (("y"%char, zfill2 y) :: found, []).
Proof.
  unfold zfill2. cbn -[digit_char].
  rewrite !is_digit_digit_char. reflexivity.
Qed.

Lemma re_match_year4_of_2 y found :
  re_match [Group "Y" (TimeRE "Y")] (zfill2 y) found = None.
Proof.
  unfold zfill2. cbn -[digit_char].
  rewrite !is_digit_digit_char. reflexivity.
Qed.

Lemma datetime_date_in_range y m d :
  1 <= y <= 9999 -> 1 <= m <= 12 -> 1 <= d ->
  datetime_date y m d
  = if d <=? days_in_month y m then Val (mkdate y m d) else Exc ValueError.
Proof.
  intros Hy Hm Hd. unfold datetime_date.
  replace (1 <=? y) with true by (symmetry; apply Z.leb_le; lia).
  replace (y <=? 9999) with true by (symmetry; apply Z.leb_le; lia).
  replace (1 <=? m) with true by (symmetry; apply Z.leb_le; lia).
  replace (m <=? 12) with true by (symmetry; apply Z.leb_le; lia).
  replace (1 <=? d) with true by (symmetry; apply Z.leb_le; lia).
  reflexivity.
Qed.

Lemma strptime_date_text_Y y m d mt dt :
  1 <= y <= 9999 -> 1 <= m <= 12 -> 1 <= d <= 31 ->
  mt = zfill2 m \/ mt = short2 m -> dt = zfill2 d \/ dt = short2 d ->
  strptime (Some (date_text mt dt (zfill4 y))) (lit "%m/%d/%y") = Exc ValueError
  /\ strptime (Some (date_text mt dt (zfill4 y))) (lit "%m/%d/%Y")
     = datetime_date y m d.
Proof.
  intros Hy Hm Hd Hmt Hdt. unfold strptime, date_text.
  rewrite pattern_mdy, pattern_mdY. split.
  - rewrite (proj1 (re_match_month_text m mt _ _ _ Hm Hmt)).
    rewrite (proj1 (re_match_day_text d dt _ _ _ Hd Hdt)).
    now rewrite re_match_year2_of_4.
  - rewrite (proj1 (re_match_month_text m mt _ _ _ Hm Hmt)).
    rewrite (proj1 (re_match_day_text d dt _ _ _ Hd Hdt)).
    rewrite re_match_year4.
    cbn [found_dict Ascii.eqb Bool.eqb].
    rewrite int_of_group_zfill4 by lia.
    rewrite (proj2 (re_match_month_text m mt [] [] [] Hm Hmt)).
    now rewrite (proj2 (re_match_day_text d dt [] [] [] Hd Hdt)).
Qed.

Lemma strptime_date_text_y yy m d mt dt :
  0 <= yy <= 99 -> 1 <= m <= 12 -> 1 <= d <= 31 ->
  mt = zfill2 m \/ mt = short2 m -> dt = zfill2 d \/ dt = short2 d ->
  strptime (Some (date_text mt dt (zfill2 yy))) (lit "%m/%d/%y")
  = datetime_date (pivot_year yy) m d
  /\ strptime (Some (date_text mt dt (zfill2 yy))) (lit "%m/%d/%Y")
     = Exc ValueError.
Proof.
  intros Hy Hm Hd Hmt Hdt. unfold strptime, date_text.
  rewrite pattern_mdy, pattern_mdY. split.
  - rewrite (proj1 (re_match_month_text m mt _ _ _ Hm Hmt)).
    rewrite (proj1 (re_match_day_text d dt _ _ _ Hd Hdt)).
    rewrite re_match_year2.
    cbn [found_dict Ascii.eqb Bool.eqb].
    rewrite int_of_group_zfill2 by lia.
    rewrite (proj2 (re_match_month_text m mt [] [] [] Hm Hmt)).
    now rewrite (proj2 (re_match_day_text d dt [] [] [] Hd Hdt)).
  - rewrite (proj1 (re_match_month_text m mt _ _ _ Hm Hmt)).
    rewrite (proj1 (re_match_day_text d dt _ _ _ Hd Hdt)).
    now rewrite re_match_year4_of_2.
Qed.

Lemma pivot_year_range yy : 0 <= yy <= 99 -> 1969 <= pivot_year yy <= 2068.
Proof. unfold pivot_year. destruct (Z.leb_spec yy 68); lia. Qed.

(** X7: a date whose month and day are written with or without a leading
    zero and whose year has four digits, 0001 to 9999, is accepted exactly
    when the day exists in that month of that year, and is then rewritten
    as the year, a dash, the month with two digits, a dash and the day with
    two digits; when the day does not exist, no format parses.  The year is
    written as a plain number: the result is YYYY-MM-DD from the year 1000
    on, and shorter than ten characters before. *)
Theorem four_digit_dates (y m d : Z) (mt dt : str) :
  1 <= y <= 9999 -> 1 <= m <= 12 -> 1 <= d <= 31 ->
  mt = zfill2 m \/ mt = short2 m -> dt = zfill2 d \/ dt = short2 d ->
  normalize_date (date_text mt dt (zfill4 y))
  = (if d <=? days_in_month y m then Val (Some (written_date y m d))
     else Val None)
  /\ (1000 <= y -> written_date y m d = iso_text y m d)
  /\ (y < 1000 -> (length (written_date y m d) < 10)%nat).
Proof.
  intros Hy Hm Hd Hmt Hdt. split; [|split].
  - unfold normalize_date, StockCheckTool.tried_formats.
    cbn [StockCheckTool.try_formats].
    destruct (strptime_date_text_Y y m d mt dt Hy Hm Hd Hmt Hdt) as [-> ->].
    rewrite datetime_date_in_range by lia.
    destruct (d <=? days_in_month y m); [|reflexivity].
    cbn [bind]. rewrite strftime_written. reflexivity.
  - intro L. apply written_date_iso. lia.
  - intro L. rewrite written_date_length.
    destruct (year_text_cases y Hy) as [[_ G]|[G _]]; lia.
Qed.

(** The 29th of February 2024, written 2/29/2024, and the first of January
    999, written 01/01/0999. *)
Lemma four_digit_dates_witness :
  normalize_date (date_text (short2 2) (zfill2 29) (zfill4 2024))
  = Val (Some (lit "2024-02-29"))
  /\ normalize_date (date_text (zfill2 1) (zfill2 1) (zfill4 999))
     = Val (Some (lit "999-01-01")).
Proof.
  split.
  - exact (proj1 (four_digit_dates 2024 2 29 (short2 2) (zfill2 29)
                    ltac:(lia) ltac:(lia) ltac:(lia)
                    (or_intror eq_refl) (or_introl eq_refl))).
  - exact (proj1 (four_digit_dates 999 1 1 (zfill2 1) (zfill2 1)
                    ltac:(lia) ltac:(lia) ltac:(lia)
                    (or_introl eq_refl) (or_introl eq_refl))).
Defined.

(** X8: with a year of two digits the first format decides: 00 to 68 are
    the years 2000 to 2068, 69 to 99 the years 1969 to 1999, and the date is
    accepted exactly when the day exists in that month of that year. *)
Theorem two_digit_years (yy m d : Z) (mt dt : str) :
  0 <= yy <= 99 -> 1 <= m <= 12 -> 1 <= d <= 31 ->
  mt = zfill2 m \/ mt = short2 m -> dt = zfill2 d \/ dt = short2 d ->
  normalize_date (date_text mt dt (zfill2 yy))
  = if d <=? days_in_month (pivot_year yy) m
    then Val (Some (iso_text (pivot_year yy) m d)) else Val None.
Proof.
  intros Hy Hm Hd Hmt Hdt. unfold normalize_date, StockCheckTool.tried_formats.
  cbn [StockCheckTool.try_formats].
  destruct (strptime_date_text_y yy m d mt dt Hy Hm Hd Hmt Hdt) as [-> ->].
  pose proof (pivot_year_range yy Hy).
  rewrite datetime_date_in_range by lia.
  destruct (d <=? days_in_month (pivot_year yy) m); [|reflexivity].
  cbn [bind]. rewrite strftime_written.
  cbn [year month day]. rewrite written_date_iso by lia. reflexivity.
Qed.

(** 5/1/69 is the first of May 1969. *)
Lemma two_digit_years_witness :
  normalize_date (date_text (short2 5) (short2 1) (zfill2 69))
  = if 1 <=? days_in_month (pivot_year 69) 5
    then Val (Some (iso_text (pivot_year 69) 5 1)) else Val None.
Proof.
  apply (two_digit_years 69 5 1 (short2 5) (short2 1));
    solve [lia | now left | now right].
Defined.

(** ** Quantities written as plain integers *)

Lemma is_digit_cases c :
  is_digit c = true ->
  c = "0"%char \/ c = "1"%char \/ c = "2"%char \/ c = "3"%char
  \/ c = "4"%char \/ c = "5"%char \/ c = "6"%char \/ c = "7"%char
  \/ c = "8"%char \/ c = "9"%char.
Proof.
  destruct c as [[] [] [] [] [] [] [] []]; intro H;
    try discriminate H; tauto.
Qed.

Ltac digit_head c H :=
  destruct (is_digit_cases c H)
    as [->|[->|[->|[->|[->|[->|[->|[->|[->| ->]]]]]]]]].

Lemma digit_facts c :
  is_digit c = true ->
  Py_ISSPACE c = false /\ (ord c <? 128)%N = true
  /\ Ascii.eqb c NUL = false /\ Ascii.eqb c "_" = false
  /\ Ascii.eqb dq c = false /\ 0 <= digit_val c <= 9.
Proof. intro H. digit_head c H; repeat split; reflexivity || (vm_compute; discriminate). Qed.

Section Digits.
Variable ds : str.
Hypothesis all_digits : forallb is_digit ds = true.

Lemma takewhile_digits : takewhile is_digit ds = ds.
Proof.
  revert all_digits. induction ds as [|c t IH]; simpl; [reflexivity|].
  intro H. apply andb_prop in H. destruct H as [-> H]. now rewrite IH.
Qed.

Lemma dropwhile_digits : dropwhile is_digit ds = [].
Proof.
  revert all_digits. induction ds as [|c t IH]; simpl; [reflexivity|].
  intro H. apply andb_prop in H. destruct H as [-> H]. now apply IH.
Qed.

Lemma transform_digits : TransformDecimalAndSpaceToASCII ds = ds.
Proof.
  unfold TransformDecimalAndSpaceToASCII.
  replace (forallb (fun c => (ord c <? 128)%N) ds) with true; [reflexivity|].
  symmetry. apply forallb_forall. intros c Hc.
  rewrite forallb_forall in all_digits. now apply digit_facts, all_digits.
Qed.

Lemma strchr_digits : strchr "_" ds = false.
Proof.
  revert all_digits. induction ds as [|c t IH]; simpl; [reflexivity|].
  intro H. apply andb_prop in H. destruct H as [Hc H].
  destruct (digit_facts c Hc) as (_ & _ & -> & -> & _). now apply IH.
Qed.

Lemma lstrip_digits : lstrip_by Py_ISSPACE ds = ds.
Proof.
  unfold lstrip_by. revert all_digits. destruct ds as [|c t]; simpl; [reflexivity|].
  intro H. apply andb_prop in H. destruct H as [Hc H].
  now destruct (digit_facts c Hc) as (-> & _).
Qed.

Lemma strip_chars_dq_digits : strip_chars dq ds = ds.
Proof.
  apply strip_chars_fixed.
  - revert all_digits. destruct ds as [|c t]; simpl; [discriminate|].
    intro H. apply andb_prop in H. destruct H as [Hc H].
    destruct (digit_facts c Hc) as (_ & _ & _ & _ & E & _).
    intro E'. injection E' as ->. now rewrite Ascii.eqb_refl in E.
  - pose proof (forallb_rev is_digit ds all_digits) as Hr.
    destruct (rev ds) as [|c t]; simpl in *; [discriminate|].
    apply andb_prop in Hr. destruct Hr as [Hc H].
    destruct (digit_facts c Hc) as (_ & _ & _ & _ & E & _).
    intro E'. injection E' as ->. now rewrite Ascii.eqb_refl in E.
Qed.
End Digits.

Lemma rstrip_digits ds :
  forallb is_digit ds = true -> rstrip_by Py_ISSPACE ds = ds.
Proof.
  intro H. unfold rstrip_by.
  change (dropwhile Py_ISSPACE (rev ds)) with (lstrip_by Py_ISSPACE (rev ds)).
  rewrite lstrip_digits by now apply forallb_rev.
  apply rev_involutive.
Qed.

Lemma length_dropwhile p s : (length (dropwhile p s) <= length s)%nat.
Proof.
  induction s as [|c t IH]; simpl; [lia|]. destruct (p c); simpl; lia.
Qed.

Lemma decimal_fold_bound ds : forall acc,
  forallb is_digit ds = true -> 0 <= acc ->
  0 <= fold_left (fun a c => 10 * a + digit_val c) ds acc
       < (acc + 1) * 10 ^ Z.of_nat (length ds).
Proof.
  induction ds as [|c t IH]; intros acc H Ha; cbn [fold_left].
  - cbn [length Z.of_nat]. lia.
  - simpl in H. apply andb_prop in H. destruct H as [Hc H].
    destruct (digit_facts c Hc) as (_ & _ & _ & _ & _ & Hv).
    specialize (IH (10 * acc + digit_val c) H ltac:(lia)).
    replace (Z.of_nat (length (c :: t))) with (Z.succ (Z.of_nat (length t)))
      by (simpl length; lia).
    rewrite Z.pow_succ_r by lia.
    assert (0 < 10 ^ Z.of_nat (length t)) by (apply Z.pow_pos_nonneg; lia).
    set (P := 10 ^ Z.of_nat (length t)) in *.
    assert ((10 * acc + digit_val c + 1) * P <= (acc + 1) * (10 * P)).
    { replace ((acc + 1) * (10 * P)) with ((10 * acc + 10) * P) by ring.
      apply Z.mul_le_mono_nonneg_r; lia. }
    lia.
Qed.

Lemma decimal_bound ds :
  forallb is_digit ds = true ->
  0 <= decimal ds < 10 ^ Z.of_nat (length ds).
Proof.
  intro H. pose proof (decimal_fold_bound ds 0 H ltac:(lia)) as B.
  unfold decimal. lia.
Qed.

(** [_Py_dg_strtod] on a run of digits. *)
Lemma Py_dg_strtod_digits ds :
  ds <> [] -> forallb is_digit ds = true -> (length ds <= 15)%nat ->
  Py_dg_strtod ds
  = Some (match decimal ds with
          | Zpos m => round_decimal false m 0
          | _ => S754_zero false
          end, []).
Proof.
  intros Hne H Hl.
  destruct ds as [|c t]; [congruence|].
  assert (Hc : is_digit c = true) by (simpl in H; now apply andb_prop in H).
  assert (E : Py_dg_strtod (c :: t)
              = let s := c :: t in
                let idigits := takewhile is_digit s in
                let s := dropwhile is_digit s in
                let '(fdigits, s) :=
                  match s with
                  | "."%char :: t => (takewhile is_digit t, dropwhile is_digit t)
                  | _ => ([], s)
                  end in
                let digits := idigits ++ fdigits in
                let ndigits := Z.of_nat (length (dropwhile is_zero_digit digits)) in
                let fraclen := Z.of_nat (length fdigits) in
                match digits with
                | [] => None
                | _ =>
                    if (MAX_DIGITS <? ndigits) || (MAX_DIGITS <? fraclen) then None
                    else
                      let '(e, s) :=
                        match s with
                        | c :: t =>
                            if Ascii.eqb c "e" || Ascii.eqb c "E" then
                              match parse_exponent t with
                              | Some (e, s') => (e, s')
                              | None => (0, s)
                              end
                            else (0, s)
                        | [] => (0, s)
                        end in
                      match decimal digits with
                      | Zpos m => Some (round_decimal false m (e - fraclen), s)
                      | _ => Some (S754_zero false, s)
                      end
                end).
  { digit_head c Hc; reflexivity. }
  rewrite E. clear E. cbv zeta.
  rewrite (takewhile_digits _ H), (dropwhile_digits _ H).
  cbv beta iota. rewrite app_nil_r.
  pose proof (length_dropwhile is_zero_digit (c :: t)) as Hd.
  replace (MAX_DIGITS <? Z.of_nat (length (dropwhile is_zero_digit (c :: t))))
    with false by (symmetry; apply Z.ltb_ge; unfold MAX_DIGITS; lia).
  cbn [orb length Z.of_nat Z.ltb Z.compare MAX_DIGITS].
  destruct (decimal (c :: t)); reflexivity.
Qed.

(** ** Integers below 2^53 pass through [float] and [int] unchanged *)

Lemma digits2_pos_lower m : 2 ^ (Zpos (digits2_pos m) - 1) <= Zpos m.
Proof.
  induction m as [m IH|m IH|]; cbn [digits2_pos].
  - rewrite Pos2Z.inj_succ. replace (Z.succ (Zpos (digits2_pos m)) - 1)
      with (Z.succ (Zpos (digits2_pos m) - 1)) by lia.
    rewrite Z.pow_succ_r by lia. lia.
  - rewrite Pos2Z.inj_succ. replace (Z.succ (Zpos (digits2_pos m)) - 1)
      with (Z.succ (Zpos (digits2_pos m) - 1)) by lia.
    rewrite Z.pow_succ_r by lia. lia.
  - simpl. lia.
Qed.

Lemma digits2_pos_le_53 m : Zpos m < 2 ^ 53 -> Zpos (digits2_pos m) <= 53.
Proof.
  intro H. pose proof (digits2_pos_lower m) as L.
  destruct (Z_le_gt_dec (Zpos (digits2_pos m)) 53) as [|G]; [assumption|].
  assert (2 ^ 53 <= 2 ^ (Zpos (digits2_pos m) - 1))
    by (apply Z.pow_le_mono_r; lia).
  lia.
Qed.

Lemma iter_xO_value m d : Zpos (Pos.iter xO m d) = Zpos m * 2 ^ Zpos d.
Proof.
  induction d as [|d IH] using Pos.peano_ind.
  - simpl. lia.
  - rewrite Pos.iter_succ, Pos2Z.inj_succ, Z.pow_succ_r by lia.
    rewrite Pos2Z.inj_xO, IH. ring.
Qed.

Lemma iter_xO_digits m d :
  digits2_pos (Pos.iter xO m d) = (digits2_pos m + d)%positive.
Proof.
  induction d as [|d IH] using Pos.peano_ind.
  - simpl. lia.
  - rewrite Pos.iter_succ. cbn [digits2_pos]. rewrite IH. lia.
Qed.

(** A mantissa of exactly 53 bits with an exponent in range is already
    rounded. *)
Lemma binary_round_aux_53 mz ez :
  Zpos (digits2_pos mz) = 53 -> -52 <= ez <= 0 ->
  binary_round_aux prec emax false (Zpos mz) ez loc_Exact
  = S754_finite false mz ez.
Proof.
  intros Hd He. unfold binary_round_aux, shr_fexp, Zdigits2.
  rewrite Hd.
  assert (F : fexp prec emax (53 + ez) = ez).
  { unfold fexp, emin, prec, emax. lia. }
  rewrite F, Z.sub_diag. cbn [shr shr_record_of_loc shr_m loc_of_shr_record
                               round_nearest_even Zdigits2].
  rewrite Hd, F, Z.sub_diag. cbn [shr shr_record_of_loc shr_m].
  replace (ez <=? emax - prec) with true
    by (symmetry; apply Z.leb_le; unfold emax, prec; lia).
  reflexivity.
Qed.

Lemma binary_round_exact m :
  Zpos m < 2 ^ 53 ->
  exists m' e',
    binary_round prec emax false m 0 = S754_finite false m' e'
    /\ e' <= 0 /\ Zpos m' = Zpos m * 2 ^ (- e').
Proof.
  intro H. pose proof (digits2_pos_le_53 m H) as Hd.
  unfold binary_round, shl_align.
  assert (F : fexp prec emax (Zpos (digits2_pos m) + 0)
              = Zpos (digits2_pos m) - 53).
  { unfold fexp, emin, prec, emax. lia. }
  rewrite F.
  destruct (Zpos (digits2_pos m) - 53 - 0) as [|p|p] eqn:E; try lia.
  - exists m, 0. rewrite binary_round_aux_53 by lia.
    repeat split; [lia | simpl; lia].
  - exists (Pos.iter xO m p), (Zpos (digits2_pos m) - 53).
    rewrite binary_round_aux_53.
    + repeat split; [lia|]. rewrite iter_xO_value. f_equal. f_equal. lia.
    + rewrite iter_xO_digits. lia.
    + lia.
Qed.

Lemma int_binary_round m :
  Zpos m < 2 ^ 53 -> int (binary_round prec emax false m 0) = Val (Zpos m).
Proof.
  intro H. destruct (binary_round_exact m H) as (m' & e' & -> & He & Hm).
  unfold int. rewrite Hm. destruct (Z.leb_spec 0 e') as [G|G].
  - replace e' with 0 by lia. simpl. f_equal. lia.
  - f_equal. apply Z.div_mul. apply Z.pow_nonzero; lia.
Qed.

(** [int(float(s))] for a text of at most 15 digits. *)
Lemma int_float_digits ds :
  ds <> [] -> forallb is_digit ds = true -> (length ds <= 15)%nat ->
  (x <- float (Some ds) ;; int x) = Val (decimal ds).
Proof.
  intros Hne H Hl.
  unfold float, string_to_number_with_underscores.
  rewrite (transform_digits _ H), (strchr_digits _ H).
  unfold float_from_string_inner.
  rewrite (lstrip_digits _ H).
  destruct ds as [|c t] eqn:Eds; [congruence|]. cbv iota.
  rewrite <- Eds in *. rewrite (rstrip_digits _ H).
  unfold PyOS_ascii_strtod. rewrite Py_dg_strtod_digits by assumption.
  cbn [bind].
  pose proof (decimal_bound ds H) as B.
  assert (10 ^ Z.of_nat (length ds) <= 10 ^ 15)
    by (apply Z.pow_le_mono_r; lia).
  destruct (decimal ds) as [|m|m] eqn:Ed; try lia.
  - reflexivity.
  - unfold round_decimal. cbn [Z.leb Z.compare].
    rewrite Z.pow_0_r, Z.mul_1_r. cbn [Z.to_pos].
    apply int_binary_round. lia.
Qed.

Lemma no_sep_digits ds : forallb is_digit ds = true -> no_sep "," ds.
Proof.
  intros H Hin. rewrite forallb_forall in H. specialize (H _ Hin).
  discriminate H.
Qed.

Lemma stock_validate_quantity a ds date iso :
  is_blank (Some a) = false ->
  (x <- float (Some ds) ;; int x) = Val (decimal ds) ->
  normalize_date date = Val (Some iso) ->
  StockCheckTool.validate (StockCheckTool.mkph (Some a) (Some ds) (Some date))
  = if decimal ds <=? 0 then ErrorData StockCheckTool.positive_error
    else Params (StockCheckTool.mkparams (strip a) (decimal ds) iso).
Proof.
  intros Hb Hq Hd. unfold StockCheckTool.validate.
  cbn [StockCheckTool.buyer_part_number StockCheckTool.order_quantity
         StockCheckTool.requested_fulfillment_date].
  rewrite Hb, Hq. destruct (decimal ds <=? 0); [reflexivity|].
  revert Hd. unfold normalize_date.
  destruct (StockCheckTool.try_formats _ _) as [[dt|]|e]; try discriminate.
  intro Hd. assert (E : strftime dt (lit "%Y-%m-%d") = iso) by congruence.
  now rewrite E.
Qed.

(** X9: a quantity written with digits only, fifteen at most, is read
    exactly: [int(float(s))] is the number the digits spell, with no
    rounding, and in an input in the documented format with a part number
    and a date that pass, that number is the quantity of the parameters when
    it is not zero, and the positive-integer message is the answer when it
    is. *)
Theorem plain_integer_quantities (part ds date iso : str) :
  ds <> [] -> forallb is_digit ds = true -> (length ds <= 15)%nat ->
  (x <- float (Some ds) ;; int x) = Val (decimal ds)
  /\ (no_sep "," part -> no_sep "," date ->
      is_blank (Some (strip_chars dq part)) = false ->
      normalize_date (strip_chars dq date) = Val (Some iso) ->
      StockCheckTool.build (inventory_input_of part ds date)
      = if decimal ds <=? 0 then ErrorData StockCheckTool.positive_error
        else Params (StockCheckTool.mkparams (strip (strip_chars dq part))
                       (decimal ds) iso)).
Proof.
  intros Hne H Hl.
  pose proof (int_float_digits ds Hne H Hl) as Hq.
  split; [exact Hq|]. intros Hp Hd Hb Hdate.
  rewrite stock_build_documented by (auto using no_sep_digits).
  rewrite (strip_chars_dq_digits _ H).
  now apply stock_validate_quantity.
Qed.

(** The largest quantity of fifteen digits. *)
Lemma plain_integer_quantities_witness :
  StockCheckTool.build
    (inventory_input_of (lit "3010228002") (lit "999999999999999") (lit "5/1/25"))
  = if decimal (lit "999999999999999") <=? 0
    then ErrorData StockCheckTool.positive_error
    else Params (StockCheckTool.mkparams
                   (strip (strip_chars dq (lit "3010228002")))
                   (decimal (lit "999999999999999")) (lit "2025-05-01")).
Proof.
  apply (proj2 (plain_integer_quantities (lit "3010228002")
                  (lit "999999999999999") (lit "5/1/25") (lit "2025-05-01")
                  ltac:(discriminate) eq_refl ltac:(simpl; lia)));
    try (apply no_sep_check; reflexivity); reflexivity.
Defined.

(** * The request and the result record *)

Section Service.
Variable str_other : pyval -> str.

Lemma is_blank_Some_raw x :
  is_blank x = false -> exists a, x = Some a /\ strip_opt x = strip a.
Proof. destruct x as [a|]; [eauto | discriminate]. Qed.

(** The whole of [build] in terms of its parse step. *)
Lemma stock_service_build post input :
  match StockCheckTool.build input with
  | ErrorData msg =>
      StockCheckService.build str_other post input = error_data msg
  | Raised e => StockCheckService.build str_other post input = Raises (Parse e)
  | Params p =>
      exists raw,
        strip raw = StockCheckTool.p_buyer_part_number p
        /\ StockCheckService.build str_other post input
           = StockCheckService.respond str_other raw p
               (post StockCheckService.url p)
  end.
Proof.
  unfold StockCheckTool.build, StockCheckService.build.
  destruct (negb _); [reflexivity|].
  destruct (StockCheckTool.parse_segments _ _) as [msg|ph]; [reflexivity|].
  destruct (StockCheckTool.validate ph) as [p|msg|e] eqn:E; try reflexivity.
  apply stock_validate_params_inv in E.
  destruct E as (a & n & dt & Ha & _ & _ & _ & _ & ->).
  rewrite Ha. exists a. split; reflexivity.
Qed.

Lemma price_service_build post input :
  match PriceCheckTool.build input with
  | ErrorData msg =>
      PriceCheckService.build str_other post input = error_data msg
  | Raised e => PriceCheckService.build str_other post input = Raises (Parse e)
  | Params p =>
      exists raw,
        strip raw = PriceCheckTool.p_buyer_part_number p
        /\ PriceCheckService.build str_other post input
           = PriceCheckService.respond str_other raw p
               (post PriceCheckService.url p)
  end.
Proof.
  unfold PriceCheckTool.build, PriceCheckService.build.
  destruct (negb _); [reflexivity|].
  destruct (PriceCheckTool.parse_segments _ _) as [msg|ph]; [reflexivity|].
  destruct (PriceCheckTool.validate ph) as [p|msg|e] eqn:E; try reflexivity.
  apply price_validate_params_inv in E.
  destruct E as (a & v & f & Ha & _ & _ & _ & ->).
  rewrite Ha. exists a. split; reflexivity.
Qed.

End Service.

(** X10: an input the parse step refuses is answered without a request: the
    record holds the message under "error", the status is the same message,
    and the reply function plays no part; when the parse step raises, so
    does [build].  This holds in both tools. *)
Theorem refused_input_sends_no_request (str_other : pyval -> str)
  (post : str -> StockCheckTool.params -> reply)
  (post' : str -> PriceCheckTool.params -> reply) (input : str) :
  (forall msg, StockCheckTool.build input = ErrorData msg ->
     StockCheckService.build str_other post input
     = Data [(lit "error", PStr msg)] msg)
  /\ (forall e, StockCheckTool.build input = Raised e ->
        StockCheckService.build str_other post input = Raises (Parse e))
  /\ (forall msg, PriceCheckTool.build input = ErrorData msg ->
        PriceCheckService.build str_other post' input
        = Data [(lit "error", PStr msg)] msg)
  /\ (forall e, PriceCheckTool.build input = Raised e ->
        PriceCheckService.build str_other post' input = Raises (Parse e)).
Proof.
  pose proof (stock_service_build str_other post input) as S.
  pose proof (price_service_build str_other post' input) as P.
  repeat split; intros x H.
  - rewrite H in S. exact S.
  - rewrite H in S. exact S.
  - rewrite H in P. exact P.
  - rewrite H in P. exact P.
Qed.

Lemma refused_input_witness :
  StockCheckService.build (fun _ => [])
    (fun _ _ => RequestException [])
    (inventory_input "3010228002" "abc" "02/13/2025")
  = Data [(lit "error", PStr StockCheckTool.integer_error)]
      StockCheckTool.integer_error.
Proof.
  apply (proj1 (refused_input_sends_no_request (fun _ => [])
                  (fun _ _ => RequestException [])
                  (fun _ _ => RequestException [])
                  (inventory_input "3010228002" "abc" "02/13/2025"))).
  vm_compute. reflexivity.
Defined.

(** ** What the tool functions answer *)

Lemma stock_parse_segments_error parts : forall ph msg,
  StockCheckTool.parse_segments parts ph = inl msg ->
  exists part,
    msg = could_not_parse part \/ exists key, msg = unrecognized_key key part.
Proof.
  induction parts as [|part parts IH]; intros ph msg; [discriminate|].
  cbn [StockCheckTool.parse_segments].
  destruct (segment_fields part) as [[k v]|];
    [|intro H; injection H as <-; eauto].
  destruct (str_eqb k _); [apply IH|].
  destruct (str_eqb k _); [apply IH|].
  destruct (str_eqb k _); [apply IH|].
  intro H; injection H as <-; eauto.
Qed.

Lemma stock_validate_error ph msg :
  StockCheckTool.validate ph = ErrorData msg ->
  msg = bpn_error \/ msg = StockCheckTool.integer_error
  \/ msg = StockCheckTool.positive_error \/ msg = StockCheckTool.date_error.
Proof.
  unfold StockCheckTool.validate.
  destruct (is_blank _); [intro H; injection H as <-; auto|].
  destruct (bind _ _) as [n|[]]; try discriminate;
    [|intro H; injection H as <-; auto].
  destruct (n <=? 0); [intro H; injection H as <-; auto|].
  destruct (StockCheckTool.try_formats _ _) as [[dt|]|e]; try discriminate.
  intro H; injection H as <-; auto.
Qed.

(** No message of the parse step starts with the letter N. *)
Lemma stock_error_head input msg :
  StockCheckTool.build input = ErrorData msg ->
  exists c rest, msg = c :: rest /\ c <> "N"%char.
Proof.
  intro H.
  destruct (stock_build_inv input) as [[_ E]|[_ [(m & Hp & E)|(ph & Hp & E)]]];
    rewrite E in H.
  - injection H as <-. eexists _, _. split; [reflexivity | discriminate].
  - injection H as <-.
    destruct (stock_parse_segments_error _ _ _ Hp) as (part & [-> | [key ->]]);
      eexists _, _; (split; [reflexivity | discriminate]).
  - destruct (stock_validate_error _ _ H) as [-> | [-> | [-> | ->]]];
      eexists _, _; (split; [reflexivity | discriminate]).
Qed.

Lemma stock_message_head str_other raw q data :
  exists rest, StockCheckService.message str_other raw q data = "S"%char :: rest.
Proof.
  unfold StockCheckService.message.
  destruct (truthy_get data _); eexists; reflexivity.
Qed.

(** X11: [check_stock_service] answers with a text in every case where it
    answers at all: the message of the parse step when the input is refused,
    "Stock check failed: " and the text of the exception when the request
    fails, and the stock message when the reply is a JSON object; the
    fallback text "No result" is never the answer. *)
Theorem stock_service_answers (str_other : pyval -> str)
  (post : str -> StockCheckTool.params -> reply) (input : str) (v : pyval) :
  StockCheckService.check_stock_service str_other post input = inl v ->
  (exists s, v = PStr s /\ s <> lit "No result")
  /\ ((exists msg, StockCheckTool.build input = ErrorData msg /\ v = PStr msg)
      \/ (exists p text,
            StockCheckTool.build input = Params p
            /\ post StockCheckService.url p = RequestException text
            /\ v = PStr (lit "Stock check failed: " ++ text))
      \/ (exists p raw data,
            StockCheckTool.build input = Params p
            /\ strip raw = StockCheckTool.p_buyer_part_number p
            /\ post StockCheckService.url p = Body (PDict data)
            /\ v = PStr (StockCheckService.message str_other raw
                           (StockCheckTool.p_order_quantity p) data))).
Proof.
  unfold StockCheckService.check_stock_service, StockCheckService.process_input.
  pose proof (stock_service_build str_other post input) as S.
  destruct (StockCheckTool.build input) as [p|msg|e] eqn:E.
  - destruct S as (raw & Hraw & ->).
    unfold StockCheckService.respond.
    destruct (post StockCheckService.url p) as [[| | | | |l|data]|text] eqn:Ep;
      try discriminate; cbn; intro H; injection H as <-.
    + destruct (stock_message_head str_other raw
                  (StockCheckTool.p_order_quantity p) data) as [rest Hm].
      split.
      * eexists. split; [reflexivity|]. rewrite Hm. discriminate.
      * right; right. exists p, raw, data. auto.
    + split.
      * eexists. split; [reflexivity | discriminate].
      * right; left. exists p, text. auto.
  - rewrite S. cbn. intro H. injection H as <-.
    destruct (stock_error_head input msg E) as (c & rest & -> & Hc).
    split.
    + eexists. split; [reflexivity|]. intro H. injection H as H _. contradiction.
    + left. eauto.
  - rewrite S. discriminate.
Qed.

Lemma stock_service_answers_witness :
  exists s,
    PStr (lit "Stock check failed: down") = PStr s /\ s <> lit "No result".
Proof.
  refine (proj1 (stock_service_answers (fun _ => [])
                   (fun _ _ => RequestException (lit "down"))
                   (inventory_input "3010228002" "32100.000" "02/13/2025")
                   (PStr (lit "Stock check failed: down")) _)).
  vm_compute. reflexivity.
Defined.

(** X12: [price_check_service] answers with the message of the parse step
    when the input is refused, with "Price check failed: " and the text of
    the exception when the request fails, and otherwise with the entry
    "message" of the JSON object of the reply, whatever value it is, or with
    the no-message text when the object has no such entry. *)
Theorem price_service_answers (str_other : pyval -> str)
  (post : str -> PriceCheckTool.params -> reply) (input : str) (v : pyval) :
  PriceCheckService.price_check_service str_other post input = inl v ->
  (exists msg, PriceCheckTool.build input = ErrorData msg /\ v = PStr msg)
  \/ (exists p text,
        PriceCheckTool.build input = Params p
        /\ post PriceCheckService.url p = RequestException text
        /\ v = PStr (lit "Price check failed: " ++ text))
  \/ (exists p data,
        PriceCheckTool.build input = Params p
        /\ post PriceCheckService.url p = Body (PDict data)
        /\ v = dict_get_default data (lit "message")
                 (PStr PriceCheckService.no_message)).
Proof.
  unfold PriceCheckService.price_check_service, PriceCheckService.process_input.
  pose proof (price_service_build str_other post input) as S.
  destruct (PriceCheckTool.build input) as [p|msg|e] eqn:E.
  - destruct S as (raw & Hraw & ->).
    unfold PriceCheckService.respond.
    destruct (post PriceCheckService.url p) as [[| | | | |l|data]|text] eqn:Ep;
      try discriminate; cbn; intro H; injection H as <-.
    + right; right. exists p, data. auto.
    + right; left. exists p, text. auto.
  - rewrite S. cbn. intro H. injection H as <-. left. eauto.
  - rewrite S. discriminate.
Qed.

Lemma price_service_answers_witness :
  (exists msg,
      PriceCheckTool.build (price_input "3010228002" "125.50") = ErrorData msg
      /\ PStr (lit "ok") = PStr msg)
  \/ (exists p text,
        PriceCheckTool.build (price_input "3010228002" "125.50") = Params p
        /\ Body (PDict [(lit "message", PStr (lit "ok"))]) = RequestException text
        /\ PStr (lit "ok") = PStr (lit "Price check failed: " ++ text))
  \/ (exists p data,
        PriceCheckTool.build (price_input "3010228002" "125.50") = Params p
        /\ Body (PDict [(lit "message", PStr (lit "ok"))]) = Body (PDict data)
        /\ PStr (lit "ok")
           = dict_get_default data (lit "message")
               (PStr PriceCheckService.no_message)).
Proof.
  apply (price_service_answers (fun _ => [])
           (fun _ _ => Body (PDict [(lit "message", PStr (lit "ok"))]))
           (price_input "3010228002" "125.50") (PStr (lit "ok"))).
  vm_compute. reflexivity.
Defined.

(** * The credit check tool *)

Lemma credit_build_cases str_other get kwargs :
  CreditCheckTool.build str_other get kwargs
  = CreditCheckTool.Raises CreditCheckTool.AttributeError
  \/ CreditCheckTool.build str_other get kwargs
     = CreditCheckTool.respond str_other (lit "3M Global")
         (get CreditCheckTool.url [(lit "buyername", PStr (lit "3M Global"))]).
Proof.
  unfold CreditCheckTool.build.
  destruct (CreditCheckTool.buyername_of kwargs); auto.
Qed.

Lemma credit_respond_error str_other buyername r d status :
  CreditCheckTool.respond str_other buyername r = CreditCheckTool.Data d status ->
  dict_get d (lit "error") <> Some (PStr (lit "No valid buyer name provided")).
Proof.
  unfold CreditCheckTool.respond. destruct r as [data| | |text].
  - destruct (CreditCheckTool.subscript data _) as [cd|f]; [|discriminate].
    destruct (CreditCheckTool.subscript cd (lit "company_name")) as [a|f];
      [|discriminate].
    destruct (CreditCheckTool.subscript cd (lit "credit_score")) as [b|f];
      [|discriminate].
    destruct (CreditCheckTool.subscript cd (lit "risk_level")) as [c|f];
      [|discriminate].
    intro H. injection H as <- _. cbn. discriminate.
  - intro H. injection H as <- _. cbn. discriminate.
  - intro H. injection H as <- _. cbn. discriminate.
  - intro H. injection H as <- _. cbn. discriminate.
Qed.

(** X13: the buyer name given to the credit check is not used.  Whatever
    the keyword arguments, [build] either raises an AttributeError, the
    name taken from them being no string, or asks for the buyer 3M Global
    and reads the reply; [credit_check_service] answers alike for any two
    names; and the record never holds the error "No valid buyer name
    provided". *)
Theorem credit_check_ignores_the_buyer (str_other : pyval -> str)
  (get : str -> dict -> CreditCheckTool.reply) (kwargs : dict)
  (name1 name2 : str) :
  (CreditCheckTool.build str_other get kwargs
   = CreditCheckTool.Raises CreditCheckTool.AttributeError
   \/ CreditCheckTool.build str_other get kwargs
      = CreditCheckTool.respond str_other (lit "3M Global")
          (get CreditCheckTool.url [(lit "buyername", PStr (lit "3M Global"))]))
  /\ CreditCheckTool.credit_check_service str_other get name1
     = CreditCheckTool.credit_check_service str_other get name2
  /\ (forall d status,
        CreditCheckTool.build str_other get kwargs
        = CreditCheckTool.Data d status ->
        dict_get d (lit "error")
        <> Some (PStr (lit "No valid buyer name provided"))).
Proof.
  split; [apply credit_build_cases|]. split; [reflexivity|].
  intros d status H.
  destruct (credit_build_cases str_other get kwargs) as [E|E];
    rewrite E in H; [discriminate|].
  eapply credit_respond_error; eauto.
Qed.

Lemma credit_check_witness :
  dict_get [(lit "error", PStr (lit "Credit check service timed out"))]
    (lit "error")
  <> Some (PStr (lit "No valid buyer name provided")).
Proof.
  apply (proj2 (proj2 (credit_check_ignores_the_buyer (fun _ => [])
                         (fun _ _ => CreditCheckTool.Timeout)
                         [(lit "buyername", PStr (lit "Acme"))] [] []))
           _ (lit "Error: Credit check service timed out")).
  reflexivity.
Defined.

(** * The documents of the contract tool *)

Lemma bullets_start str_other t ts :
  exists rest,
    join (ascii_of_N 10)
      (map (fun text => lit "- " ++ py_str str_other text) (t :: ts))
    = lit "- " ++ rest.
Proof.
  destruct ts as [|t2 ts]; cbn [map].
  - eexists. reflexivity.
  - rewrite join_cons2, <- app_assoc. eexists. reflexivity.
Qed.

Lemma doc_texts_nil documents :
  ContractPaymentTermsTool.doc_texts documents = []
  <-> Forall (eq ContractPaymentTermsTool.NotData) documents.
Proof.
  unfold ContractPaymentTermsTool.doc_texts.
  induction documents as [|doc docs IH]; simpl.
  - split; [constructor | reflexivity].
  - destruct doc as [data|]; simpl.
    + split; [discriminate|]. intro H. inversion H. discriminate.
    + rewrite IH. split; [now constructor|]. intro H. now inversion H.
Qed.

(** X14: [format_documents] never returns an empty text, and its three
    answers tell the three cases apart: "No search results found." exactly
    for an empty list, "No valid document content found." exactly for a list
    that is not empty and holds no [Data], and otherwise lines that start
    with a dash and a space. *)
Theorem format_documents_cases (str_other : pyval -> str)
  (documents : list ContractPaymentTermsTool.document) :
  ContractPaymentTermsTool.format_documents str_other documents <> []
  /\ (ContractPaymentTermsTool.format_documents str_other documents
      = lit "No search results found." <-> documents = [])
  /\ (ContractPaymentTermsTool.format_documents str_other documents
      = lit "No valid document content found."
      <-> documents <> []
          /\ Forall (eq ContractPaymentTermsTool.NotData) documents)
  /\ (ContractPaymentTermsTool.doc_texts documents <> [] ->
      exists rest,
        ContractPaymentTermsTool.format_documents str_other documents
        = lit "- " ++ rest).
Proof.
  unfold ContractPaymentTermsTool.format_documents.
  destruct documents as [|doc docs].
  - split; [discriminate|]. split; [tauto|]. split.
    + split; [discriminate | intros [H _]; congruence].
    + intro H. now elim H.
  - pose proof (doc_texts_nil (doc :: docs)) as N.
    destruct (ContractPaymentTermsTool.doc_texts (doc :: docs)) as [|t ts].
    + split; [discriminate|]. split; [split; discriminate|]. split.
      * split; [|reflexivity]. intros _. split; [discriminate|]. now apply N.
      * intro H. now elim H.
    + destruct (bullets_start str_other t ts) as [rest E]. rewrite E.
      split; [discriminate|].
      split; [split; discriminate|]. split.
      * split; [discriminate|]. intros [_ H]. apply N in H. discriminate.
      * intros _. now exists rest.
Qed.

Lemma format_documents_witness :
  exists rest,
    ContractPaymentTermsTool.format_documents (fun _ => [])
      [ContractPaymentTermsTool.IsData [(lit "text", PStr (lit "Net 90 Days"))]]
    = lit "- " ++ rest.
Proof.
  apply (proj2 (proj2 (proj2 (format_documents_cases (fun _ => [])
           [ContractPaymentTermsTool.IsData
              [(lit "text", PStr (lit "Net 90 Days"))]])))).
  discriminate.
Defined.

(** * More on segments *)

(** X15: on an input written [buyer_part_number="..", order_quantity="..",
    requested_fulfillment_date=".."] (resp. with [po_price]) whose values
    hold no comma, the parse step is the validation of the three (resp. two)
    values with the quotes at their ends removed; nothing else of the
    values matters to the segment loop. *)
Theorem documented_format_reaches_validation (part second date : str) :
  no_sep "," part -> no_sep "," second -> no_sep "," date ->
  StockCheckTool.build (inventory_input_of part second date)
  = StockCheckTool.validate
      (StockCheckTool.mkph (Some (strip_chars dq part))
         (Some (strip_chars dq second)) (Some (strip_chars dq date)))
  /\ PriceCheckTool.build (price_input_of part second)
     = PriceCheckTool.validate
         (PriceCheckTool.mkph (Some (strip_chars dq part))
            (Some (strip_chars dq second))).
Proof.
  intros Hp Hs Hd. split.
  - now apply stock_build_documented.
  - now apply price_build_documented.
Qed.

Lemma documented_format_witness :
  StockCheckTool.build
    (inventory_input_of (lit "3010228002") (lit "7") (lit "5/1/25"))
  = StockCheckTool.validate
      (StockCheckTool.mkph (Some (strip_chars dq (lit "3010228002")))
         (Some (strip_chars dq (lit "7"))) (Some (strip_chars dq (lit "5/1/25")))).
Proof.
  apply (documented_format_reaches_validation
           (lit "3010228002") (lit "7") (lit "5/1/25"));
    apply no_sep_check; reflexivity.
Defined.

Lemma split_maxsplit1_no_sep sep s :
  no_sep sep s -> split_maxsplit1 sep s = [s].
Proof.
  unfold no_sep. induction s as [|c s IH]; simpl; intro H; [reflexivity|].
  destruct (Ascii.eqb c sep) eqn:E.
  - apply Ascii.eqb_eq in E. tauto.
  - rewrite IH by tauto. reflexivity.
Qed.

Lemma in_split_at sep (s : str) :
  In sep s -> exists a b, s = a ++ sep :: b /\ no_sep sep a.
Proof.
  induction s as [|c s IH]; [intros []|].
  destruct (ascii_dec c sep) as [->|Hne].
  - intros _. exists [], s. split; [reflexivity | intros []].
  - intros [H|H]; [congruence|].
    destruct (IH H) as (a & b & -> & Ha).
    exists (c :: a), b. split; [reflexivity|].
    intros [E|E]; [congruence | now apply Ha].
Qed.

(** X16: a segment is the could-not-parse kind exactly when, once stripped,
    it holds no equals sign; and when it holds one, the key is what stands
    before the first one, stripped, and the value what stands after it,
    further equals signs included, stripped of white space and then of
    quotes. *)
Theorem malformed_means_no_equals_sign (part : str) :
  (segment_fields part = None <-> no_sep "=" (strip part))
  /\ (forall k v, no_sep "=" k -> strip part = k ++ "="%char :: v ->
        segment_fields part = Some (strip k, strip_chars dq (strip v))).
Proof.
  split; [split|].
  - intros H Hin. destruct (in_split_at _ _ Hin) as (a & b & E & Ha).
    unfold segment_fields in H.
    rewrite E, split_maxsplit1_app_sep in H by exact Ha. discriminate.
  - intro H. unfold segment_fields.
    now rewrite split_maxsplit1_no_sep by exact H.
  - intros k v Hk E. unfold segment_fields.
    now rewrite E, split_maxsplit1_app_sep by exact Hk.
Qed.

Lemma malformed_witness :
  segment_fields (lit " note = a=b ")
  = Some (strip (lit "note "), strip_chars dq (strip (lit " a=b"))).
Proof.
  apply (proj2 (malformed_means_no_equals_sign (lit " note = a=b "))).
  - apply no_sep_check. reflexivity.
  - reflexivity.
Defined.

(** ** Commas inside values *)

Lemma length_split sep s :
  length (split sep s) = S (count_occ ascii_dec s sep).
Proof.
  induction s as [|c s IH]; [reflexivity|]. simpl.
  destruct (Ascii.eqb_spec c sep) as [->|Hne].
  - destruct (ascii_dec sep sep); [|congruence]. simpl. now rewrite IH.
  - destruct (ascii_dec c sep); [congruence|].
    destruct (split sep s); simpl in *; lia.
Qed.

Lemma count_dropwhile p sep s :
  p sep = false ->
  count_occ ascii_dec (dropwhile p s) sep = count_occ ascii_dec s sep.
Proof.
  intro Hp. induction s as [|c s IH]; [reflexivity|]. simpl.
  destruct (p c) eqn:E; [|reflexivity].
  destruct (ascii_dec c sep) as [->|]; [congruence | exact IH].
Qed.

Lemma count_strip s :
  count_occ ascii_dec (strip s) ","%char = count_occ ascii_dec s ","%char.
Proof.
  unfold strip, strip_by, lstrip_by, rstrip_by.
  rewrite count_occ_rev, count_dropwhile by reflexivity.
  rewrite count_occ_rev. now apply count_dropwhile.
Qed.

Lemma count_lit_app (l : string) (s : str) n :
  count_occ ascii_dec (lit l) ","%char = n ->
  count_occ ascii_dec (lit l ++ s) ","%char
  = (n + count_occ ascii_dec s ","%char)%nat.
Proof. intros <-. apply count_occ_app. Qed.

Lemma count_quoted s :
  count_occ ascii_dec (quoted s) ","%char = count_occ ascii_dec s ","%char.
Proof.
  unfold quoted. rewrite count_occ_cons_neq by discriminate.
  rewrite count_occ_app. simpl. lia.
Qed.

Lemma count_assign key value n :
  count_occ ascii_dec (lit key) ","%char = n ->
  count_occ ascii_dec (assign key value) ","%char
  = (n + count_occ ascii_dec value ","%char)%nat.
Proof.
  intro H. unfold assign. rewrite count_occ_app, H.
  rewrite count_occ_cons_neq by discriminate. now rewrite count_quoted.
Qed.

Lemma count_inventory_input part quantity date :
  count_occ ascii_dec (inventory_input_of part quantity date) ","%char
  = (2 + count_occ ascii_dec part ","%char
     + count_occ ascii_dec quantity ","%char
     + count_occ ascii_dec date ","%char)%nat.
Proof.
  unfold inventory_input_of. rewrite comma_space_3. cbn [join].
  rewrite count_occ_app, (count_assign _ _ 0) by reflexivity.
  rewrite count_occ_cons_eq by reflexivity.
  rewrite count_occ_app.
  rewrite count_occ_cons_neq by discriminate.
  rewrite (count_assign _ _ 0) by reflexivity.
  rewrite count_occ_cons_eq by reflexivity.
  rewrite count_occ_cons_neq by discriminate.
  rewrite (count_assign _ _ 0) by reflexivity. lia.
Qed.

Lemma count_price_input part price :
  count_occ ascii_dec (price_input_of part price) ","%char
  = (1 + count_occ ascii_dec part ","%char
     + count_occ ascii_dec price ","%char)%nat.
Proof.
  unfold price_input_of. rewrite comma_space_2. cbn [join].
  rewrite count_occ_app, (count_assign _ _ 0) by reflexivity.
  rewrite count_occ_cons_eq by reflexivity.
  rewrite count_occ_cons_neq by discriminate.
  rewrite (count_assign _ _ 0) by reflexivity. lia.
Qed.

Lemma stock_build_count input :
  count_occ ascii_dec input ","%char <> 2%nat ->
  StockCheckTool.build input = ErrorData StockCheckTool.count_error.
Proof.
  intro H. unfold StockCheckTool.build.
  rewrite length_split, count_strip.
  destruct (Nat.eqb_spec (S (count_occ ascii_dec input ","%char)) 3) as [E|E];
    [lia | reflexivity].
Qed.

Lemma price_build_count input :
  count_occ ascii_dec input ","%char <> 1%nat ->
  PriceCheckTool.build input = ErrorData PriceCheckTool.count_error.
Proof.
  intro H. unfold PriceCheckTool.build.
  rewrite length_split, count_strip.
  destruct (Nat.eqb_spec (S (count_occ ascii_dec input ","%char)) 2) as [E|E];
    [lia | reflexivity].
Qed.

(** X17: a comma inside a value is taken for a separator, quotes or not: an
    input in the documented format with a comma in any of its values is
    answered with the segment-count message, in both tools; more generally
    the inventory tool goes past the count test only with exactly two
    commas in the input and the price tool only with one. *)
Theorem comma_in_a_value_is_a_count_error (input part second date : str) :
  (count_occ ascii_dec input ","%char <> 2%nat ->
   StockCheckTool.build input = ErrorData StockCheckTool.count_error)
  /\ (count_occ ascii_dec input ","%char <> 1%nat ->
      PriceCheckTool.build input = ErrorData PriceCheckTool.count_error)
  /\ (In ","%char part \/ In ","%char second \/ In ","%char date ->
      StockCheckTool.build (inventory_input_of part second date)
      = ErrorData StockCheckTool.count_error)
  /\ (In ","%char part \/ In ","%char second ->
      PriceCheckTool.build (price_input_of part second)
      = ErrorData PriceCheckTool.count_error).
Proof.
  split; [apply stock_build_count|]. split; [apply price_build_count|].
  split; intro H.
  - apply stock_build_count. rewrite count_inventory_input.
    destruct H as [H|[H|H]];
      apply (count_occ_In ascii_dec) in H; lia.
  - apply price_build_count. rewrite count_price_input.
    destruct H as [H|H]; apply (count_occ_In ascii_dec) in H; lia.
Qed.

(** A part number with a comma between its quotes. *)
Lemma comma_in_a_value_witness :
  StockCheckTool.build
    (inventory_input_of (lit "30,10") (lit "5") (lit "5/1/25"))
  = ErrorData StockCheckTool.count_error.
Proof.
  apply (proj1 (proj2 (proj2 (comma_in_a_value_is_a_count_error
                                [] (lit "30,10") (lit "5") (lit "5/1/25"))))).
  left. simpl. tauto.
Defined.
